(** * The py3status mixer module ([i3/mixer.py]): a shallow embedding

    The module drives PulseAudio through [pactl]: it reads the volume of
    the working sink, renders it for the status bar and, in "edit mode",
    cycles the working sink with the scroll wheel.

    Conventions of the embedding.
    - The semantics is that of Python 3: [/] on integers is the true
      division, in binary64.
    - A Python [str] is a Rocq [string].  The helpers that classify
      characters ([split], [strip], [splitlines], [int]) know the ASCII
      white space and line breaks; characters above 127 are carried
      through unchanged and are never separators.
    - Python values that flow through the storage and through argument
      vectors are of type [value].
    - The external world (the [py3] helper, the [re] engine, the audio
      server behind [pactl]) is a record [Env] of oracles; the commands a
      handler runs are appended to the field [runs] of the state, and the
      answer to a query may depend on the commands run so far.
    - Handlers are computations in the monad [M]: they take a state and
      give back an outcome (a value or a raised exception) and the state
      reached. *)

From Stdlib Require Import ZArith String Ascii List Bool Lia DecimalString.
From Stdlib Require Import Floats.SpecFloat.
From stdpp Require Import gmap strings list.

Import ListNotations.
Local Open Scope string_scope.
Local Open Scope Z_scope.

(** ** Python values and exceptions *)

Inductive value : Type :=
| VNone
| VBool (b : bool)
| VInt (z : Z)
| VStr (s : string).

Coercion VStr : string >-> value.

Inductive exn : Type :=
| CommandError
| ValueError
| TypeError
| IndexError
| KeyError
| RuntimeError
| OverflowError
| ZeroDivisionError
| ConfigError (msg : string).

(** Outcome of a computation.  [OutOfFuel] is only produced by the
    [while] loop of [on_click], whose iterations are counted. *)
Inductive result (A : Type) : Type :=
| Ok (a : A)
| Raise (e : exn)
| OutOfFuel.

Arguments Ok {A} a.
Arguments Raise {A} e.
Arguments OutOfFuel {A}.

Definition rbind {A B} (r : result A) (k : A -> result B) : result B :=
  match r with
  | Ok a => k a
  | Raise e => Raise e
  | OutOfFuel => OutOfFuel
  end.

(** Truth value of an object, as tested by [if], [not] and [or]. *)
Definition truthy (v : value) : bool :=
  match v with
  | VNone => false
  | VBool b => b
  | VInt z => negb (z =? 0)
  | VStr s => negb (String.eqb s "")
  end.

(** [s == v] for a string [s]: a string equals only an equal string. *)
Definition str_eq_value (s : string) (v : value) : bool :=
  match v with
  | VStr t => String.eqb s t
  | _ => false
  end.

(** ** The built-in string functions the module calls *)

Module PyStr.

Definition code (c : ascii) : N := N_of_ascii c.

(** [str.isspace] on one character: TAB, LF, VT, FF, CR, the four
    separators FS GS RS US, and the blank. *)
Definition is_space (c : ascii) : bool :=
  let n := code c in
  ((9 <=? n) && (n <=? 13) || (28 <=? n) && (n <=? 31) || (n =? 32))%N.

(** Line boundaries of [str.splitlines]: LF, VT, FF, CR, FS, GS, RS. *)
Definition is_linebreak (c : ascii) : bool :=
  let n := code c in
  ((10 <=? n) && (n <=? 13) || (28 <=? n) && (n <=? 30))%N.

Definition is_digit (c : ascii) : bool :=
  let n := code c in ((48 <=? n) && (n <=? 57))%N.

Definition is_empty (s : string) : bool :=
  match s with EmptyString => true | String _ _ => false end.

Definition LF : ascii := "010"%char.
Definition CR : ascii := "013"%char.

(** [s.split(sep)] for a one-character separator: the result is never
    empty, and has one more element than [s] has separators. *)
Fixpoint split_char (sep : ascii) (s : string) : list string :=
  match s with
  | EmptyString => [EmptyString]
  | String c rest =>
      if Ascii.eqb c sep then EmptyString :: split_char sep rest
      else match split_char sep rest with
           | [] => [String c EmptyString]
           | w :: ws => String c w :: ws
           end
  end.

(** [l[:-1]]: all but the last element ([[]] for the empty list). *)
Fixpoint drop_last {A} (l : list A) : list A :=
  match l with
  | [] => []
  | [_] => []
  | x :: tl => x :: drop_last tl
  end.

(** [s.split()]: the maximal runs of characters that are not white
    space.  [words_aux s] is the run [s] starts with (empty if [s]
    starts with white space) and the runs after it. *)
Fixpoint words_aux (s : string) : string * list string :=
  match s with
  | EmptyString => (EmptyString, [])
  | String c rest =>
      let '(w, ws) := words_aux rest in
      if is_space c then (EmptyString, if is_empty w then ws else w :: ws)
      else (String c w, ws)
  end.

Definition split (s : string) : list string :=
  let '(w, ws) := words_aux s in
  if is_empty w then ws else w :: ws.

(** [s.splitlines()]: no empty last line, CR LF is one boundary. *)
Fixpoint splitlines (s : string) : list string :=
  match s with
  | EmptyString => []
  | String c rest =>
      if is_linebreak c then
        match rest with
        | String c2 rest' =>
            if Ascii.eqb c CR && Ascii.eqb c2 LF
            then EmptyString :: splitlines rest'
            else EmptyString :: splitlines rest
        | EmptyString => [EmptyString]
        end
      else match splitlines rest with
           | [] => [String c EmptyString]
           | l :: ls => String c l :: ls
           end
  end.

Fixpoint lstrip_of (sp : ascii -> bool) (s : string) : string :=
  match s with
  | String c rest => if sp c then lstrip_of sp rest else s
  | EmptyString => EmptyString
  end.

Fixpoint rstrip_of (sp : ascii -> bool) (s : string) : string :=
  match s with
  | EmptyString => EmptyString
  | String c rest =>
      let r := rstrip_of sp rest in
      if sp c && is_empty r then EmptyString else String c r
  end.

(** [s.strip()] *)
Definition strip (s : string) : string :=
  rstrip_of is_space (lstrip_of is_space s).

(** [s.startswith(p)], returning what follows the prefix. *)
Fixpoint strip_prefix (p s : string) : option string :=
  match p, s with
  | EmptyString, _ => Some s
  | String a p', String b s' =>
      if Ascii.eqb a b then strip_prefix p' s' else None
  | String _ _, EmptyString => None
  end.

(** [str(n)] and ["{}".format(n)] for an integer. *)
Definition of_Z (z : Z) : string := NilZero.string_of_int (Z.to_int z).

(** White space that [int] skips around the number: TAB, LF, VT, FF,
    CR and the blank (the four separators are not skipped). *)
Definition is_int_space (c : ascii) : bool :=
  let n := code c in ((9 <=? n) && (n <=? 13) || (n =? 32))%N.

(** What the scan of a number has just read. *)
Inductive scan := AtStart | AfterDigit | AfterUnderscore.

(** The digits of a number: single underscores are allowed between two
    digits. *)

Fixpoint digits (s : string) (st : scan) (acc : Z) : option Z :=
  match s with
  | EmptyString =>
      match st with AfterDigit => Some acc | _ => None end
  | String c rest =>
      if is_digit c then
        digits rest AfterDigit (10 * acc + (Z.of_N (code c) - 48))
      else if Ascii.eqb c "_"%char then
        match st with
        | AfterDigit => digits rest AfterUnderscore acc
        | _ => None
        end
      else None
  end.

(** [int(s)] in base 10: optional white space around, an optional
    sign, then the digits; [None] for [ValueError]. *)
Definition to_Z (s : string) : option Z :=
  match rstrip_of is_int_space (lstrip_of is_int_space s) with
  | String "+"%char rest => digits rest AtStart 0
  | String "-"%char rest => option_map Z.opp (digits rest AtStart 0)
  | t => digits t AtStart 0
  end.

(** [s.capitalize()]: first character upper-cased, the others
    lower-cased (ASCII letters). *)
Definition upper (c : ascii) : ascii :=
  let n := code c in
  if ((97 <=? n) && (n <=? 122))%N then ascii_of_N (n - 32) else c.

Definition lower (c : ascii) : ascii :=
  let n := code c in
  if ((65 <=? n) && (n <=? 90))%N then ascii_of_N (n + 32) else c.

Fixpoint map_chars (f : ascii -> ascii) (s : string) : string :=
  match s with
  | EmptyString => EmptyString
  | String c rest => String (f c) (map_chars f rest)
  end.

Definition capitalize (s : string) : string :=
  match s with
  | EmptyString => EmptyString
  | String c rest => String (upper c) (map_chars lower rest)
  end.

End PyStr.

(** [str(v)], as used for argument vectors and pattern formatting. *)
Definition py_str (v : value) : string :=
  match v with
  | VNone => "None"
  | VBool true => "True"
  | VBool false => "False"
  | VInt z => PyStr.of_Z z
  | VStr s => s
  end.

(** [l[i]] for a list: negative indices count from the end. *)
Definition py_getitem {A} (l : list A) (i : Z) : result A :=
  let n := Z.of_nat (length l) in
  let j := if i <? 0 then i + n else i in
  if (0 <=? j) && (j <? n) then
    match nth_error l (Z.to_nat j) with
    | Some x => Ok x
    | None => Raise IndexError
    end
  else Raise IndexError.

(** [a % b] on integers: the sign of the result is that of [b]. *)
Definition py_mod (a b : Z) : result Z :=
  if b =? 0 then Raise ZeroDivisionError else Ok (a mod b).

(** ** Floating-point arithmetic of the glyph computation

    [int(perc) / 100 * (len(blocks) - 1)] is evaluated in binary64: the
    true division of two integers is the correctly rounded quotient, the
    integer factor is converted to a float, and the product is rounded
    again.  The operations are those of the Standard Library's
    executable specification of IEEE 754 ([SpecFloat]). *)

Module PyFloat.

Definition prec : Z := 53.
Definition emax : Z := 1024.

(** An integer as an exact, unrounded operand. *)
Definition exact (z : Z) : spec_float :=
  match z with
  | Z0 => S754_zero false
  | Zpos m => S754_finite false m 0
  | Zneg m => S754_finite true m 0
  end.

Definition finite (f : spec_float) : result spec_float :=
  match f with
  | S754_infinity _ => Raise OverflowError
  | _ => Ok f
  end.

(** [a / b] on integers. *)
Definition true_div (a b : Z) : result spec_float :=
  if b =? 0 then Raise ZeroDivisionError
  else finite (SFdiv prec emax (exact a) (exact b)).

(** [float(n)] for an integer, as the right operand of [*] gets it. *)
Definition of_int (n : Z) : result spec_float :=
  finite (binary_normalize prec emax n 0 false).

(** [x * n] for a float [x] and an integer [n]. *)
Definition mul_int (x : spec_float) (n : Z) : result spec_float :=
  rbind (of_int n) (fun y => Ok (SFmul prec emax x y)).

(** [math.ceil(x)] *)
Definition ceil (x : spec_float) : result Z :=
  match x with
  | S754_zero _ => Ok 0
  | S754_finite s m e =>
      let n := if s then Zneg m else Zpos m in
      Ok (if 0 <=? e then n * 2 ^ e else - ((- n) / 2 ^ (- e)))
  | S754_infinity _ => Raise OverflowError
  | S754_nan => Raise ValueError
  end.

End PyFloat.

(** The ceiling of the exact quotient [a / b], for [b > 0]. *)
Definition ceil_div (a b : Z) : Z := - ((- a) / b).

(** The index expression of [volume_status]:
    [min(len(blocks) - 1, int(math.ceil(int(perc) / 100 * (len(blocks) - 1))))],
    for [p = int(perc)] and [L = len(blocks)]. *)
Definition glyph_index (p L : Z) : result Z :=
  rbind (PyFloat.true_div p 100) (fun q =>
  rbind (PyFloat.mul_int q (L - 1)) (fun x =>
  rbind (PyFloat.ceil x) (fun c =>
  Ok (Z.min (L - 1) c)))).

(** ** The external world and the state of the module *)

(** The dictionary handed to the formatter: [icon] and [percentage]
    always, [sink_name] only in edit mode. *)
Record volume_data : Type := {
  icon : option string;
  percentage : string;
  shown_sink_name : option value
}.

(** What the module does not implement itself.
    - [command_output runs argv]: the text [py3.command_output(argv)]
      returns after the commands [runs] were run, [None] when it raises
      [CommandError];
    - [command_run runs argv]: whether [py3.command_run(argv)] returns
      ([false]: it raises [CommandError]);
    - [re_search pattern text]: the groups of the first match of the
      compiled [pattern] (flags [re.M | re.DOTALL]) in [text], [None]
      when [search] finds no match;
    - [which cmd]: whether the executable [cmd] is installed;
    - [safe_format], [time_in], [COLOR_MUTED], [COLOR_BAD]: the
      formatter, the clock and the colours of the [py3] helper. *)
Record Env : Type := {
  command_output : list (list value) -> list string -> option string;
  command_run : list (list value) -> list value -> bool;
  re_search : string -> string -> option (list string);
  which : string -> bool;
  safe_format : string -> volume_data -> string;
  time_in : Z -> Z;
  COLOR_MUTED : option string;
  COLOR_BAD : option string
}.

(** The configuration parameters of [Py3status]. [blocks] is the ramp
    as the list of its characters. *)
Record config : Type := {
  blocks : list string;
  button_left : Z;
  button_right : Z;
  scroll_up : Z;
  scroll_down : Z;
  cache_timeout : Z;
  format : string;
  format_muted : string;
  is_input : bool;
  max_volume : Z;
  thresholds : list (Z * string);
  volume_delta : Z
}.

(** The mutable state: the [py3] storage, the attributes [device] and
    [re_volume] of the backend, and the commands run so far. *)
Record state : Type := {
  storage : gmap string value;
  device : value;
  re_volume : string;
  runs : list (list value)
}.

Definition set_storage (f : gmap string value -> gmap string value) (st : state) : state :=
  {| storage := f (storage st); device := device st;
     re_volume := re_volume st; runs := runs st |}.

Definition set_device (d : value) (st : state) : state :=
  {| storage := storage st; device := d;
     re_volume := re_volume st; runs := runs st |}.

Definition set_re_volume (p : string) (st : state) : state :=
  {| storage := storage st; device := device st;
     re_volume := p; runs := runs st |}.

Definition add_run (cmd : list value) (st : state) : state :=
  {| storage := storage st; device := device st;
     re_volume := re_volume st; runs := runs st ++ [cmd] |}.

(** ** The monad of handlers *)

Definition M (A : Type) : Type := state -> result A * state.

Definition ret {A} (a : A) : M A := fun st => (Ok a, st).

Definition raise {A} (e : exn) : M A := fun st => (Raise e, st).

Definition lift {A} (r : result A) : M A := fun st => (r, st).

Definition bind {A B} (m : M A) (k : A -> M B) : M B :=
  fun st =>
    match m st with
    | (Ok a, st') => k a st'
    | (Raise e, st') => (Raise e, st')
    | (OutOfFuel, st') => (OutOfFuel, st')
    end.

Definition gets {A} (f : state -> A) : M A := fun st => (Ok (f st), st).

Definition modify (f : state -> state) : M unit := fun st => (Ok tt, f st).

Declare Scope py_scope.
Delimit Scope py_scope with py.
Notation "'let*' x ':=' m 'in' k" := (bind m (fun x => k))
  (at level 10, x name, m at level 100, k at level 200) : py_scope.
Notation "'let*' ' p ':=' m 'in' k" := (bind m (fun p => k))
  (at level 10, p pattern, m at level 100, k at level 200) : py_scope.
Notation "m '>>' k" := (bind m (fun _ => k))
  (at level 100, k at level 200, right associativity) : py_scope.
Local Open Scope py_scope.

(** [for x in l: body(x)] *)
Fixpoint for_each {A} (l : list A) (body : A -> M unit) : M unit :=
  match l with
  | [] => ret tt
  | x :: tl => body x >> for_each tl body
  end.

(** [[f(x) for x in l]] for a function that may raise. *)
Fixpoint comprehension {A B} (f : A -> result B) (l : list A) : result (list B) :=
  match l with
  | [] => Ok []
  | x :: tl => rbind (f x) (fun y => rbind (comprehension f tl) (fun ys => Ok (y :: ys)))
  end.

(** *** The [py3] helper *)

Definition py3_command_output (env : Env) (cmd : list string) : M string :=
  fun st =>
    match command_output env (runs st) cmd with
    | Some out => (Ok out, st)
    | None => (Raise CommandError, st)
    end.

(** A command is recorded when it is attempted, whether or not it
    succeeds. *)
Definition py3_command_run (env : Env) (cmd : list value) : M unit :=
  fun st =>
    (if command_run env (runs st) cmd then Ok tt else Raise CommandError,
     add_run cmd st).

(** [py3.check_commands(cmd_list)]: the first command of the list that is
    installed, [None] when there is none. *)
Fixpoint check_commands (env : Env) (cmd_list : list string) : option string :=
  match cmd_list with
  | [] => None
  | cmd :: tl => if which env cmd then Some cmd else check_commands env tl
  end.

(** [py3.storage_get(key)]: [None] for a key never set. *)
Definition storage_get (key : string) : M value :=
  gets (fun st => default VNone (storage st !! key)).

Definition storage_set (key : string) (v : value) : M unit :=
  modify (set_storage (fun m => <[key := v]> m)).

(** ** [class Pactl(Audio)] *)

Module Pactl.

Definition device_type (cfg : config) : string :=
  if is_input cfg then "source" else "sink".

Definition device_type_pl (cfg : config) : string :=
  device_type cfg ++ "s".

(** [device_type[0].upper() + device_type[1:]] *)
Definition device_type_cap (cfg : config) : string :=
  match device_type cfg with
  | String c rest => String (PyStr.upper c) rest
  | EmptyString => EmptyString
  end.

(** The pattern [update_device] compiles, after formatting.  The
    device is pasted in unescaped; a pattern that [re.compile] refuses
    is not modelled. *)
Definition volume_pattern (cap dev : string) : string :=
  cap ++ " (?:\#" ++ dev ++ "|.*?Name: " ++ dev
      ++ ").*?Mute: (\w{2,3}).*?Volume:.*?(\d{1,3})\%".

Definition update_device (cfg : config) : M unit :=
  let* d := gets device in
  modify (set_re_volume (volume_pattern (device_type_cap cfg) (py_str d))).

Definition set_default_device (env : Env) (cfg : config) : M unit :=
  let* d := gets device in
  py3_command_run env
    [VStr "pactl"; VStr ("set-default-" ++ device_type cfg); VStr (py_str d)].

(** The loop of [get_device_index] over the lines of the short
    listing: the first token of the first line whose second token is
    [device_id]. *)
Fixpoint find_device_index (device_id : string) (lines : list string) : option string :=
  match lines with
  | [] => None
  | line :: tl =>
      match PyStr.split line with
      | p0 :: p1 :: _ =>
          if String.eqb p1 device_id then Some p0
          else find_device_index device_id tl
      | _ => find_device_index device_id tl
      end
  end.

Definition get_device_index (env : Env) (cfg : config) (device_id : option string) : M string :=
  match device_id with
  | Some id =>
      let* output := py3_command_output env ["pactl"; "list"; "short"; device_type_pl cfg] in
      match find_device_index id (PyStr.splitlines output) with
      | Some idx => ret idx
      | None => raise RuntimeError
      end
  | None => raise RuntimeError
  end.

(** The loop of [get_default_device] over the lines of [pactl info].
    The pattern is the prefix [Default <Cap>: ] anchored at the start,
    then a group of any characters but the line feed up to the end:
    [re.match] succeeds exactly on the lines that start with the
    prefix, and the group is the rest of the line, since a line of
    [splitlines] holds no line feed. *)
Fixpoint find_default_device (cap : string) (lines : list string) : option string :=
  match lines with
  | [] => None
  | info_line :: tl =>
      match PyStr.strip_prefix ("Default " ++ cap ++ ": ") info_line with
      | Some device_id => Some device_id
      | None => find_default_device cap tl
      end
  end.

(** [get_default_device(name)]: the name when [name] is true ([None]
    when [pactl info] shows no default), else its index. *)
Definition get_default_device (env : Env) (cfg : config) (name : bool) : M value :=
  let* output := py3_command_output env ["pactl"; "info"] in
  let device_id := find_default_device (device_type_cap cfg) (PyStr.splitlines output) in
  if name then
    ret (match device_id with Some id => VStr id | None => VNone end)
  else
    let* idx := get_device_index env cfg device_id in
    ret (VStr idx).

Definition first_token (line : string) : result string :=
  py_getitem (PyStr.split line) 0.

Definition get_sink_inputs (env : Env) : M (list string) :=
  let* cmd_out := py3_command_output env ["pactl"; "list"; "short"; "sink-inputs"] in
  lift (comprehension first_token (PyStr.drop_last (PyStr.split_char PyStr.LF cmd_out))).

(** The loop of [swap_device]: one [move-sink-input] per stream. *)
Definition move_sink_inputs (env : Env) : M unit :=
  let* sink_inputs := get_sink_inputs env in
  for_each sink_inputs (fun sink_input =>
    let* d := gets device in
    py3_command_run env
      [VStr "pactl"; VStr "move-sink-input"; VStr sink_input; VStr (py_str d)]).

Definition swap_device (env : Env) (cfg : config) (new_device : value) : M unit :=
  modify (set_device new_device) >>
  update_device cfg >>
  set_default_device env cfg >>
  move_sink_inputs env.

(** [setup], after [Audio.__init__] copied the parent's [device]. *)
Definition setup (env : Env) (cfg : config) (parent_device : value) : M unit :=
  modify (set_device parent_device) >>
  let* d := get_default_device env cfg false in
  modify (set_device d) >>
  update_device cfg.

(** [get_volume]: the pair [(perc, muted)]; both are [None] when the
    pattern finds no match. *)
Definition get_volume (env : Env) (cfg : config) : M (option string * option bool) :=
  let* raw := py3_command_output env ["pactl"; "list"; device_type_pl cfg] in
  let output := PyStr.strip raw in
  let* pattern := gets re_volume in
  match re_search env pattern output with
  | None => ret (None, None)
  | Some [muted; perc] => ret (Some perc, Some (String.eqb muted "yes"))
  | Some _ => raise ValueError
  end.

(** [int(perc)] for the first component of [get_volume]. *)
Definition int_of_perc (perc : option string) : result Z :=
  match perc with
  | None => Raise TypeError
  | Some s =>
      match PyStr.to_Z s with
      | Some p => Ok p
      | None => Raise ValueError
      end
  end.

Definition volume_up (env : Env) (cfg : config) (delta : Z) : M unit :=
  let* '(perc, muted) := get_volume env cfg in
  let* p := lift (int_of_perc perc) in
  let change :=
    if p + delta >=? max_volume cfg
    then PyStr.of_Z (max_volume cfg) ++ "%"
    else "+" ++ PyStr.of_Z delta ++ "%" in
  let* d := gets device in
  py3_command_run env
    [VStr "pactl"; VStr "--"; VStr ("set-" ++ device_type cfg ++ "-volume"); d; VStr change].

Definition volume_down (env : Env) (cfg : config) (delta : Z) : M unit :=
  let* d := gets device in
  py3_command_run env
    [VStr "pactl"; VStr "--"; VStr ("set-" ++ device_type cfg ++ "-volume"); d;
     VStr ("-" ++ PyStr.of_Z delta ++ "%")].

Definition toggle_mute (env : Env) (cfg : config) : M unit :=
  let* d := gets device in
  py3_command_run env
    [VStr "pactl"; VStr ("set-" ++ device_type cfg ++ "-mute"); d; VStr "toggle"].

End Pactl.

(** ** [class Py3status] *)

Definition STRING_ERROR (cmd : string) : string := "invalid command `" ++ cmd ++ "`".
Definition STRING_NOT_AVAILABLE : string := "no available binary".
Definition COMMAND_NOT_INSTALLED (cmd : string) : string := "command `" ++ cmd ++ "` not installed".

(** An entry of the sink list: the dictionary with the keys [name] and
    [state]. *)
Record sink : Type := {
  name : string;
  state_of : string
}.

(** The reply of [volume_status]. *)
Record response : Type := {
  cached_until : Z;
  full_text : string;
  color : option string
}.

Module Py3status.

(** The commands the module accepts as [command]. *)
Definition supported : list string := ["amixer"; "pamixer"; "pactl"].

(** The list [commands] of [post_config_hook]: the PulseAudio tools
    are tried only when [pulseaudio] itself is installed. *)
Definition candidates (env : Env) : list string :=
  match check_commands env ["pulseaudio"] with
  | Some _ => ["pamixer"; "pactl"; "amixer"]
  | None => ["amixer"]
  end.

(** [x in l] for strings. *)
Definition str_in (x : string) (l : list string) : bool :=
  existsb (String.eqb x) l.

(** [not self.command] *)
Definition no_command (command : option string) : bool :=
  match command with
  | Some cmd => PyStr.is_empty cmd
  | None => true
  end.

(** The first part of [post_config_hook], up to the last [raise]: the
    value of [self.command] once the backend is chosen. *)
Definition select_command (env : Env) (command : option string) : result string :=
  rbind
    (match command with
     | Some cmd =>
         if PyStr.is_empty cmd then
           Ok (check_commands env (candidates env))
         else if negb (str_in cmd supported) then
           Raise (ConfigError (STRING_ERROR cmd))
         else if no_command (check_commands env [cmd]) then
           Raise (ConfigError (COMMAND_NOT_INSTALLED cmd))
         else Ok (Some cmd)
     | None => Ok (check_commands env (candidates env))
     end)
    (fun command' =>
       match command' with
       | Some cmd =>
           if PyStr.is_empty cmd then Raise (ConfigError STRING_NOT_AVAILABLE)
           else Ok cmd
       | None => Raise (ConfigError STRING_NOT_AVAILABLE)
       end).

(** [globals()[name]]: of the three backends only [Pactl] is defined
    in the module. *)
Definition backend_defined (class_name : string) : bool :=
  String.eqb class_name "Pactl".

(** [post_config_hook]: choose the command, then build the backend
    with [device] reset to [0]. *)
Definition post_config_hook (env : Env) (cfg : config) (command : option string) : M string :=
  let* cmd := lift (select_command env command) in
  if backend_defined (PyStr.capitalize cmd) then
    Pactl.setup env cfg (VInt 0) >> ret cmd
  else raise KeyError.

(** [self.color_muted], as [post_config_hook] sets it:
    [COLOR_MUTED or COLOR_BAD]. *)
Definition color_muted (env : Env) : option string :=
  match COLOR_MUTED env with
  | Some c => if PyStr.is_empty c then COLOR_BAD env else Some c
  | None => COLOR_BAD env
  end.

(** The glyph of a percentage: [blocks[min(...)]]. *)
Definition glyph (cfg : config) (perc : string) : result string :=
  rbind (Pactl.int_of_perc (Some perc)) (fun p =>
  rbind (glyph_index p (Z.of_nat (length (blocks cfg)))) (fun i =>
  py_getitem (blocks cfg) i)).

Definition opt_truthy (b : option bool) : bool :=
  match b with Some true => true | _ => false end.

Definition volume_status (env : Env) (cfg : config) : M response :=
  let* '(perc, muted) := Pactl.get_volume env cfg in
  let* '(perc_text, color, icon, new_format) :=
    match perc with
    | None => ret ("?", None, None, format cfg)
    | Some perc =>
        if opt_truthy muted then
          ret (perc, color_muted env, None, format_muted cfg)
        else
          let* g := lift (glyph cfg perc) in
          ret (perc, Some "#FFFFFF", Some g, format cfg)
    end in
  let* edit_mode := storage_get "edit_mode" in
  let* shown :=
    if truthy edit_mode then
      let* v := storage_get "sink_name" in ret (Some v)
    else ret None in
  let volume_data :=
    {| icon := icon; percentage := perc_text; shown_sink_name := shown |} in
  ret {| cached_until := time_in env (cache_timeout cfg);
         full_text := safe_format env new_format volume_data;
         color := color |}.

(** One entry of [__get_sink_list]: second and last token of a line. *)
Definition sink_of_line (line : string) : result sink :=
  rbind (py_getitem (PyStr.split line) 1) (fun n =>
  rbind (py_getitem (PyStr.split line) (-1)) (fun s =>
  Ok {| name := n; state_of := s |})).

(** The comprehension of [__get_sink_list] over the lines of the
    output, the last piece of the split left out. *)
Definition parse_sink_list (cmd_out : string) : result (list sink) :=
  comprehension sink_of_line (PyStr.drop_last (PyStr.split_char PyStr.LF cmd_out)).

Definition get_sink_list (env : Env) : M (list sink) :=
  let* cmd_out := py3_command_output env ["pactl"; "list"; "sinks"; "short"] in
  lift (parse_sink_list cmd_out).

(** [__get_sink_index]: the index of the first entry named
    [sink_name], [None] for [raise ValueError]. *)
Fixpoint get_sink_index_from (i : Z) (sink_list : list sink) (sink_name : value) : option Z :=
  match sink_list with
  | [] => None
  | s :: tl =>
      if str_eq_value (name s) sink_name then Some i
      else get_sink_index_from (i + 1) tl sink_name
  end.

Definition get_sink_index (sink_list : list sink) (sink_name : value) : option Z :=
  get_sink_index_from 0 sink_list sink_name.

(** [delta = -1 if self.scroll_up else 1]: the test is on the
    configured button number, not on the button of the event. *)
Definition scroll_delta (cfg : config) : Z :=
  if truthy (VInt (scroll_up cfg)) then -1 else 1.

(** The loop
    [while sink_list[ind]['state'] == 'SUSPENDED': ind = (ind + delta) % len(sink_list)];
    [fuel] bounds the number of times the condition is evaluated. *)
Fixpoint skip_suspended (fuel : nat) (sink_list : list sink) (delta ind : Z) : result Z :=
  match fuel with
  | O => OutOfFuel
  | S fuel' =>
      rbind (py_getitem sink_list ind) (fun s =>
      if String.eqb (state_of s) "SUSPENDED" then
        rbind (py_mod (ind + delta) (Z.of_nat (length sink_list))) (fun ind' =>
        skip_suspended fuel' sink_list delta ind')
      else Ok ind)
  end.

(** [on_click(event)], for [button = event["button"]].  A missing
    selection ([ValueError] of [__get_sink_index]) ends the handler. *)
Definition on_click (fuel : nat) (env : Env) (cfg : config) (button : Z) : M unit :=
  if button =? button_left cfg then
    let* edit_mode := storage_get "edit_mode" in
    storage_set "edit_mode" (VBool (negb (truthy edit_mode))) >>
    let* d := Pactl.get_default_device env cfg true in
    storage_set "sink_name" d
  else if button =? button_right cfg then
    Pactl.toggle_mute env cfg
  else
    let* edit_mode := storage_get "edit_mode" in
    if truthy edit_mode then
      if (button =? scroll_up cfg) || (button =? scroll_down cfg) then
        let* sink_name := storage_get "sink_name" in
        let* sink_list := get_sink_list env in
        let delta := scroll_delta cfg in
        match get_sink_index sink_list sink_name with
        | None => ret tt
        | Some i =>
            let* ind := lift (py_mod (i + delta) (Z.of_nat (length sink_list))) in
            let* ind := lift (skip_suspended fuel sink_list delta ind) in
            let* s := lift (py_getitem sink_list ind) in
            storage_set "sink_name" (VStr (name s)) >>
            Pactl.swap_device env cfg (VInt ind)
        end
      else ret tt
    else ret tt.

End Py3status.

(** ** The default configuration

    The class attributes as the module has them; [blocks] has 25
    characters. *)

Definition default_blocks : list string :=
    ["_"; "‚"; "ñ"; "Å"; "‚"; "ñ"; "Ç"; "‚"; "ñ";
     "É"; "‚"; "ñ"; "Ñ"; "‚"; "ñ"; "Ö"; "‚"; "ñ";
     "Ü"; "‚"; "ñ"; "á"; "‚"; "ñ"; "à"].

Definition default_config : config := {|
  blocks := default_blocks;
  button_left := 1;
  button_right := 3;
  scroll_up := 4;
  scroll_down := 5;
  cache_timeout := 10;
  format := "[\?if=is_input ÔÑ∞|ÔÄ®] {percentage}%[ - {sink_name}]";
  format_muted := "[\?if=is_input ÔÑ±|Ôö©] {percentage}%[ - {sink_name}]";
  is_input := false;
  max_volume := 200;
  thresholds := [(0, "bad"); (20, "degraded"); (50, "good")];
  volume_delta := 5
|}.


(** ** What the specification says, for comparison

    These two definitions follow the words of the specification, not the
    source. *)

(** The label of the last pair whose threshold is at most [p], for an
    ascending list. *)
Fixpoint last_threshold (p : Z) (ths : list (Z * string)) (acc : option string) : option string :=
  match ths with
  | [] => acc
  | (t, label) :: tl => last_threshold p tl (if t <=? p then Some label else acc)
  end.

(** Threshold selection with the fall-back to the lowest tier. *)
Definition spec_threshold_label (p : Z) (ths : list (Z * string)) : option string :=
  match last_threshold p ths None with
  | Some label => Some label
  | None => match ths with (_, label) :: _ => Some label | [] => None end
  end.

(** The glyph index in exact arithmetic:
    [min(L - 1, ceil(p / 100 * (L - 1)))]. *)
Definition spec_glyph_index (p L : Z) : Z :=
  Z.min (L - 1) (ceil_div (p * (L - 1)) 100).

(** ** A scripted world

    Queries are answered from a table, every command succeeds, the
    pattern search gives a fixed answer, and the formatter shows the
    percentage followed by the glyph. *)

Fixpoint reply (table : list (list string * string)) (argv : list string) : option string :=
  match table with
  | [] => None
  | (a, out) :: tl => if decide (a = argv) then Some out else reply tl argv
  end.

Definition show_volume (fmt : string) (d : volume_data) : string :=
  percentage d ++ match icon d with Some g => g | None => "" end.

Definition scripted (table : list (list string * string))
    (groups : option (list string)) (installed : list string) : Env := {|
  command_output := fun _ argv => reply table argv;
  command_run := fun _ _ => true;
  re_search := fun _ _ => groups;
  which := fun cmd => Py3status.str_in cmd installed;
  safe_format := show_volume;
  time_in := fun t => t;
  COLOR_MUTED := None;
  COLOR_BAD := Some "#FF0000"
|}.

Definition NL : string := String PyStr.LF EmptyString.

(** A line of [pactl list sinks short]. *)
Definition short_line (idx nm st : string) : string :=
  idx ++ " " ++ nm ++ " module-alsa-card.c s16le 2ch 44100Hz " ++ st ++ NL.

Definition sinks_query : list string := ["pactl"; "list"; "sinks"; "short"].
Definition inputs_query : list string := ["pactl"; "list"; "short"; "sink-inputs"].
Definition info_query : list string := ["pactl"; "info"].
Definition volume_query : list string := ["pactl"; "list"; "sinks"].

(** The state of a widget in edit mode whose selection is [sel]. *)
Definition editing (sel : string) : state := {|
  storage := <["sink_name" := VStr sel]> (<["edit_mode" := VBool true]> ∅);
  device := VStr "0";
  re_volume := Pactl.volume_pattern "Sink" "0";
  runs := []
|}.

(** The listing [get_volume] asks for. *)
Definition listing_query (cfg : config) : list string :=
  ["pactl"; "list"; Pactl.device_type_pl cfg].

(** The command [volume_up] runs in state [st] for a change [change]. *)
Definition set_volume_cmd (cfg : config) (st : state) (change : string) : list value :=
  [VStr "pactl"; VStr "--"; VStr ("set-" ++ Pactl.device_type cfg ++ "-volume");
   device st; VStr change].

(** The entry [sink_name] of the dictionary [volume_status] formats:
    present only in edit mode. *)
Definition shown_selection (st : state) : option value :=
  if truthy (default VNone (storage st !! "edit_mode"))
  then Some (default VNone (storage st !! "sink_name"))
  else None.

(** Whether the float evaluation and the exact formula give the same
    glyph index for the percentage [p] and a ramp of length [L]. *)
Definition glyph_agrees (L p : nat) : bool :=
  match glyph_index (Z.of_nat p) (Z.of_nat L) with
  | Ok i => i =? spec_glyph_index (Z.of_nat p) (Z.of_nat L)
  | _ => false
  end.

(** Variants of a configuration. *)
Definition with_blocks (b : list string) (cfg : config) : config := {|
  blocks := b;
  button_left := button_left cfg; button_right := button_right cfg;
  scroll_up := scroll_up cfg; scroll_down := scroll_down cfg;
  cache_timeout := cache_timeout cfg;
  format := format cfg; format_muted := format_muted cfg;
  is_input := is_input cfg; max_volume := max_volume cfg;
  thresholds := thresholds cfg; volume_delta := volume_delta cfg
|}.

Definition with_max_volume (m : Z) (cfg : config) : config := {|
  blocks := blocks cfg;
  button_left := button_left cfg; button_right := button_right cfg;
  scroll_up := scroll_up cfg; scroll_down := scroll_down cfg;
  cache_timeout := cache_timeout cfg;
  format := format cfg; format_muted := format_muted cfg;
  is_input := is_input cfg; max_volume := m;
  thresholds := thresholds cfg; volume_delta := volume_delta cfg
|}.

(** A ramp of 26 glyphs. *)
Definition letters : list string :=
  ["a"; "b"; "c"; "d"; "e"; "f"; "g"; "h"; "i"; "j"; "k"; "l"; "m";
   "n"; "o"; "p"; "q"; "r"; "s"; "t"; "u"; "v"; "w"; "x"; "y"; "z"].

(** The upstream ramp of nine glyphs, in ASCII. *)
Definition nine_glyphs : list string :=
  ["_"; "1"; "2"; "3"; "4"; "5"; "6"; "7"; "8"].

(** A state outside edit mode, with working sink [0]. *)
Definition idle : state := {|
  storage := ∅;
  device := VStr "0";
  re_volume := Pactl.volume_pattern "Sink" "0";
  runs := []
|}.

(** A world whose listing shows the percentage [perc], not muted, or
    nothing the pattern matches when [found] is [None]. *)
Definition listing (found : option (list string)) : Env :=
  scripted [(volume_query, "Sink #0" ++ NL); (info_query, "Default Sink: A" ++ NL)]
           found ["pulseaudio"; "pactl"].

Definition playing (perc : string) : Env := listing (Some ["no"; perc]).

(** The colour of a reply, when there is one. *)
Definition color_of (r : result response * state) : option (option string) :=
  match fst r with
  | Ok reply => Some (color reply)
  | _ => None
  end.

(** The stored flag and selection, as [storage_get] reads them. *)
Definition edit_mode_of (st : state) : value := default VNone (storage st !! "edit_mode").
Definition selection_of (st : state) : value := default VNone (storage st !! "sink_name").

(** The first command of [swap_device] for the list index [i]. *)
Definition set_default_cmd (cfg : config) (i : Z) : list value :=
  [VStr "pactl"; VStr ("set-default-" ++ Pactl.device_type cfg); VStr (PyStr.of_Z i)].

(** What the left click stores as selection, given the text of
    [pactl info]. *)
Definition default_device_name (cfg : config) (info : string) : value :=
  match Pactl.find_default_device (Pactl.device_type_cap cfg) (PyStr.splitlines info) with
  | Some id => VStr id
  | None => VNone
  end.

(** A world with the given short listing of sinks and no stream. *)
Definition sinks_world (lines : list string) (info : string) : Env :=
  scripted [(sinks_query, String.concat "" lines); (inputs_query, ""); (info_query, info)]
           None ["pulseaudio"; "pactl"].

(** A computation that ends, keeps the storage and the working device,
    and at most runs further commands. *)
Definition extends {A} (m : M A) : Prop :=
  forall st,
    fst (m st) <> OutOfFuel
    /\ storage (snd (m st)) = storage st
    /\ device (snd (m st)) = device st
    /\ exists more, runs (snd (m st)) = (runs st ++ more)%list.

(** Worlds with two and three sinks; the default device is [B]. *)
Definition awake_and_suspended : Env :=
  sinks_world [short_line "0" "A" "RUNNING"; short_line "1" "B" "SUSPENDED"]
              ("Default Sink: B" ++ NL).

Definition both_suspended : Env :=
  sinks_world [short_line "0" "A" "SUSPENDED"; short_line "1" "B" "SUSPENDED"]
              ("Default Sink: B" ++ NL).

Definition three_running : Env :=
  sinks_world [short_line "0" "A" "RUNNING"; short_line "1" "B" "RUNNING";
               short_line "2" "C" "RUNNING"]
              ("Default Sink: B" ++ NL).

Definition middle_suspended : Env :=
  sinks_world [short_line "0" "A" "RUNNING"; short_line "1" "B" "SUSPENDED";
               short_line "2" "C" "RUNNING"]
              ("Default Sink: B" ++ NL).

(** [c] is the first command of [l] that is installed. *)
Definition first_available (env : Env) (l : list string) (c : string) : Prop :=
  exists before after,
    l = (before ++ c :: after)%list
    /\ which env c = true
    /\ forall x, In x before -> which env x = false.

(** ** Further notions used in the statements *)

(** Whether the index expression evaluates, for the percentage [p] and
    a ramp of length [L]. *)
Definition glyph_defined (L p : nat) : bool :=
  match glyph_index (Z.of_nat p) (Z.of_nat L) with
  | Ok _ => true
  | _ => false
  end.

(** A world whose listing shows the percentage [perc], muted. *)
Definition muted_at (perc : string) : Env := listing (Some ["yes"; perc]).

(** The compiled pattern is the one for the working device. *)
Definition consistent (cfg : config) (st : state) : Prop :=
  re_volume st = Pactl.volume_pattern (Pactl.device_type_cap cfg) (py_str (device st)).

(** A world in which every command that is run returns. *)
Definition always_runs (env : Env) : Prop :=
  forall done cmd, command_run env done cmd = true.

(** The command of [swap_device] that moves the stream [input] to the
    list index [i]. *)
Definition move_cmd (i : Z) (input : string) : list value :=
  [VStr "pactl"; VStr "move-sink-input"; VStr input; VStr (PyStr.of_Z i)].

(** The comprehension of [get_sink_inputs] over the text of the
    listing. *)
Definition parse_sink_inputs (cmd_out : string) : result (list string) :=
  comprehension Pactl.first_token (PyStr.drop_last (PyStr.split_char PyStr.LF cmd_out)).

(** The [pactl] sub-commands a click can run. *)
Definition click_verbs (cfg : config) : list string :=
  ["set-default-" ++ Pactl.device_type cfg; "move-sink-input";
   "set-" ++ Pactl.device_type cfg ++ "-mute"].

Definition click_command (cfg : config) (cmd : list value) : Prop :=
  exists verb rest, cmd = VStr "pactl" :: VStr verb :: rest /\ In verb (click_verbs cfg).

(** A step of a click handler: it keeps the pattern in line with the
    working device, and the commands it runs are click commands. *)
Definition click_step {A} (cfg : config) (m : M A) : Prop :=
  forall st,
    (consistent cfg st -> consistent cfg (snd (m st)))
    /\ exists more,
         runs (snd (m st)) = (runs st ++ more)%list
         /\ Forall (click_command cfg) more.


(** A world with the given streams, in which [A] is the only sink. *)
Definition streams_world (inputs : string) : Env :=
  scripted [(sinks_query, short_line "0" "A" "RUNNING"); (inputs_query, inputs);
            (info_query, "Default Sink: A" ++ NL)]
           None ["pulseaudio"; "pactl"].

(** A world in which no command can be run. *)
Definition refusing (env : Env) : Env := {|
  command_output := command_output env;
  command_run := fun _ _ => false;
  re_search := re_search env;
  which := which env;
  safe_format := safe_format env;
  time_in := time_in env;
  COLOR_MUTED := COLOR_MUTED env;
  COLOR_BAD := COLOR_BAD env
|}.

(** A sink the loop of [on_click] stops on. *)
Definition awake (s : sink) : bool := negb (String.eqb (state_of s) "SUSPENDED").

(** The lines [__get_sink_list] reads from the output of [pactl]. *)
Definition sink_lines (cmd_out : string) : list string :=
  PyStr.drop_last (PyStr.split_char PyStr.LF cmd_out).


(** A world in which [pactl info] cannot be run. *)
Definition no_info : Env :=
  scripted [(sinks_query, short_line "0" "A" "RUNNING")] None ["pulseaudio"; "pactl"].

(** A world for [setup]: the default sink [alsa.out] has index [3]. *)
Definition setup_world : Env :=
  scripted [(info_query, "Server Name: pulseaudio" ++ NL ++ "Default Sink: alsa.out" ++ NL);
            (["pactl"; "list"; "short"; "sinks"],
             short_line "1" "hdmi.out" "IDLE" ++ short_line "3" "alsa.out" "RUNNING")]
           None ["pulseaudio"; "pactl"].

(** A state before [post_config_hook]. *)
Definition fresh : state := {|
  storage := ∅;
  device := VInt 0;
  re_volume := "";
  runs := []
|}.

(** * Properties *)

(** ** Built-in functions on examples *)
Example split_char_ex :
  PyStr.split_char PyStr.LF ("a b" ++ String PyStr.LF "c" ++ String PyStr.LF "")
  = ["a b"; "c"; ""].
Proof. reflexivity. Qed.

Example split_ex : PyStr.split "  0 alsa.out   RUNNING " = ["0"; "alsa.out"; "RUNNING"].
Proof. reflexivity. Qed.

Example to_Z_ex : PyStr.to_Z " 098 " = Some 98 /\ PyStr.to_Z "1__0" = None /\ PyStr.to_Z "-1_0" = Some (-10).
Proof. repeat split; reflexivity. Qed.

Example of_Z_ex : PyStr.of_Z 120 = "120" /\ PyStr.of_Z (-5) = "-5" /\ PyStr.of_Z 0 = "0".
Proof. repeat split; reflexivity. Qed.

Example glyph_index_default : glyph_index 95 9 = Ok 8.
Proof. reflexivity. Qed.

Example default_blocks_length : length default_blocks = 25%nat.
Proof. reflexivity. Qed.

(** Two lines of [pactl list sinks short], and a line too short for
    [line.split()[1]]. *)
Example parse_sink_list_ex :
  Py3status.parse_sink_list
    (short_line "0" "A" "RUNNING" ++ short_line "1" "B" "SUSPENDED")
  = Ok [ {| name := "A"; state_of := "RUNNING" |};
         {| name := "B"; state_of := "SUSPENDED" |} ]
  /\ Py3status.parse_sink_list ("0" ++ NL) = Raise IndexError
  /\ Py3status.parse_sink_list "" = Ok [].
Proof. repeat split; reflexivity. Qed.

Example find_default_device_ex :
  Pactl.find_default_device "Sink"
    (PyStr.splitlines ("Server Name: pulseaudio" ++ NL ++ "Default Sink: alsa.out" ++ NL
                       ++ "Default Source: alsa.in" ++ NL))
  = Some "alsa.out".
Proof. reflexivity. Qed.


(** ** Reading the volume *)

Section Volume.

Variables (env : Env) (cfg : config).

(** [get_volume] never runs a command and never changes the state. *)
Lemma get_volume_pure st : snd (Pactl.get_volume env cfg st) = st.
Proof.
  unfold Pactl.get_volume, bind, py3_command_output, gets, ret, raise.
  destruct (command_output env (runs st) _) as [out|]; simpl; [|reflexivity].
  destruct (re_search env _ _) as [[|m [|perc [|x l]]]|]; reflexivity.
Qed.

Lemma get_volume_no_match st out :
  command_output env (runs st) (listing_query cfg) = Some out ->
  re_search env (re_volume st) (PyStr.strip out) = None ->
  Pactl.get_volume env cfg st = (Ok (None, None), st).
Proof.
  intros Hout Hre.
  unfold Pactl.get_volume, bind, py3_command_output, gets, ret.
  unfold listing_query in Hout. rewrite Hout. simpl. rewrite Hre. reflexivity.
Qed.

Lemma get_volume_match st out muted perc :
  command_output env (runs st) (listing_query cfg) = Some out ->
  re_search env (re_volume st) (PyStr.strip out) = Some [muted; perc] ->
  Pactl.get_volume env cfg st = (Ok (Some perc, Some (String.eqb muted "yes")), st).
Proof.
  intros Hout Hre.
  unfold Pactl.get_volume, bind, py3_command_output, gets, ret.
  unfold listing_query in Hout. rewrite Hout. simpl. rewrite Hre. reflexivity.
Qed.

Lemma volume_up_known st out muted perc p delta :
  command_output env (runs st) (listing_query cfg) = Some out ->
  re_search env (re_volume st) (PyStr.strip out) = Some [muted; perc] ->
  PyStr.to_Z perc = Some p ->
  snd (Pactl.volume_up env cfg delta st)
  = add_run (set_volume_cmd cfg st
               (if p + delta >=? max_volume cfg
                then PyStr.of_Z (max_volume cfg) ++ "%"
                else "+" ++ PyStr.of_Z delta ++ "%")) st.
Proof.
  intros Hout Hre Hp.
  unfold Pactl.volume_up, bind.
  rewrite (get_volume_match st out muted perc Hout Hre).
  unfold lift, Pactl.int_of_perc. rewrite Hp.
  unfold gets, py3_command_run. reflexivity.
Qed.

End Volume.

(** C4. [volume_up] clamps at the ceiling: when the current percentage
    plus [delta] reaches [max_volume], the one command it runs sets the
    volume to exactly [max_volume] percent; below the ceiling the one
    command is the relative increase by [delta] percent. *)
Theorem volume_up_clamps env cfg st out muted perc p delta :
  command_output env (runs st) (listing_query cfg) = Some out ->
  re_search env (re_volume st) (PyStr.strip out) = Some [muted; perc] ->
  PyStr.to_Z perc = Some p ->
  (p + delta >= max_volume cfg ->
   runs (snd (Pactl.volume_up env cfg delta st))
   = (runs st ++ [set_volume_cmd cfg st (PyStr.of_Z (max_volume cfg) ++ "%")])%list)
  /\ (p + delta < max_volume cfg ->
      runs (snd (Pactl.volume_up env cfg delta st))
      = (runs st ++ [set_volume_cmd cfg st ("+" ++ PyStr.of_Z delta ++ "%")])%list).
Proof.
  intros Hout Hre Hp.
  rewrite (volume_up_known env cfg st out muted perc p delta Hout Hre Hp).
  split; intros Hcmp.
  - assert (E : (p + delta >=? max_volume cfg) = true) by (apply Z.geb_le; lia).
    rewrite E. reflexivity.
  - assert (E : (p + delta >=? max_volume cfg) = false).
    { destruct (p + delta >=? max_volume cfg) eqn:G; [|reflexivity].
      apply Z.geb_le in G. lia. }
    rewrite E. reflexivity.
Qed.

(** C10. When the pattern finds no match, [volume_up] raises
    [TypeError] at [int(perc)]: it runs no command and leaves the state
    as it was. *)
Theorem volume_up_unknown_raises env cfg st out delta :
  command_output env (runs st) (listing_query cfg) = Some out ->
  re_search env (re_volume st) (PyStr.strip out) = None ->
  Pactl.volume_up env cfg delta st = (Raise TypeError, st).
Proof.
  intros Hout Hre.
  unfold Pactl.volume_up, bind.
  rewrite (get_volume_no_match env cfg st out Hout Hre).
  reflexivity.
Qed.

(** ** Rendering the volume *)

(** [volume_status] by cases on what [get_volume] returns. *)
Lemma volume_status_cases env cfg st :
  Py3status.volume_status env cfg st
  = match Pactl.get_volume env cfg st with
    | (Ok (None, _), _) =>
        (Ok {| cached_until := time_in env (cache_timeout cfg);
               full_text := safe_format env (format cfg)
                 {| icon := None; percentage := "?";
                    shown_sink_name := shown_selection st |};
               color := None |}, st)
    | (Ok (Some perc, muted), _) =>
        if Py3status.opt_truthy muted then
          (Ok {| cached_until := time_in env (cache_timeout cfg);
                 full_text := safe_format env (format_muted cfg)
                   {| icon := None; percentage := perc;
                      shown_sink_name := shown_selection st |};
                 color := Py3status.color_muted env |}, st)
        else
          match Py3status.glyph cfg perc with
          | Ok g =>
              (Ok {| cached_until := time_in env (cache_timeout cfg);
                     full_text := safe_format env (format cfg)
                       {| icon := Some g; percentage := perc;
                          shown_sink_name := shown_selection st |};
                     color := Some "#FFFFFF" |}, st)
          | Raise e => (Raise e, st)
          | OutOfFuel => (OutOfFuel, st)
          end
    | (Raise e, _) => (Raise e, st)
    | (OutOfFuel, _) => (OutOfFuel, st)
    end.
Proof.
  unfold Py3status.volume_status, bind.
  pose proof (get_volume_pure env cfg st) as Hst.
  destruct (Pactl.get_volume env cfg st) as [[[perc muted]|e|] st']; simpl in Hst; subst st'; try reflexivity.
  unfold shown_selection, storage_get, gets, ret, lift.
  destruct perc as [perc|].
  - destruct (Py3status.opt_truthy muted).
    + destruct (truthy _); reflexivity.
    + destruct (Py3status.glyph cfg perc); try reflexivity.
      destruct (truthy _); reflexivity.
  - destruct (truthy _); reflexivity.
Qed.

(** C5. When the pattern finds no match in the listing, [get_volume]
    returns [(None, None)] without raising, and [volume_status] then
    formats the marker [?] as the percentage, with no glyph and no
    colour, without raising. *)
Theorem unknown_volume_renders_marker env cfg st out :
  command_output env (runs st) (listing_query cfg) = Some out ->
  re_search env (re_volume st) (PyStr.strip out) = None ->
  Pactl.get_volume env cfg st = (Ok (None, None), st)
  /\ Py3status.volume_status env cfg st
     = (Ok {| cached_until := time_in env (cache_timeout cfg);
              full_text := safe_format env (format cfg)
                {| icon := None; percentage := "?";
                   shown_sink_name := shown_selection st |};
              color := None |}, st).
Proof.
  intros Hout Hre.
  pose proof (get_volume_no_match env cfg st out Hout Hre) as Hv.
  split; [exact Hv|].
  rewrite volume_status_cases, Hv. reflexivity.
Qed.

(** *** The glyph *)

(** The float evaluation agrees with the exact formula on every
    percentage the pattern can capture, for ramps of up to 25 glyphs. *)
Lemma glyph_table :
  forallb (fun L => forallb (glyph_agrees L) (seq 0 1000)) (seq 1 25) = true.
Proof. vm_compute. reflexivity. Qed.

Lemma glyph_index_exact p L :
  0 <= p <= 999 -> 1 <= L <= 25 ->
  glyph_index p L = Ok (spec_glyph_index p L).
Proof.
  intros Hp HL.
  pose proof glyph_table as T.
  rewrite forallb_forall in T.
  specialize (T (Z.to_nat L)).
  rewrite forallb_forall in T.
  assert (HinL : In (Z.to_nat L) (seq 1 25)) by (apply in_seq; lia).
  assert (Hinp : In (Z.to_nat p) (seq 0 1000)) by (apply in_seq; lia).
  specialize (T HinL (Z.to_nat p) Hinp).
  unfold glyph_agrees in T.
  rewrite !Z2Nat.id in T by lia.
  destruct (glyph_index p L) as [i| |]; try discriminate.
  apply Z.eqb_eq in T. congruence.
Qed.

Lemma spec_glyph_index_range p L :
  0 <= p -> 1 <= L -> 0 <= spec_glyph_index p L < L.
Proof.
  intros Hp HL. unfold spec_glyph_index, ceil_div.
  assert (H0 : 0 <= p * (L - 1)) by nia.
  pose proof (Z.div_mod (- (p * (L - 1))) 100 ltac:(lia)) as Hdm.
  pose proof (Z.mod_pos_bound (- (p * (L - 1))) 100 ltac:(lia)) as Hb.
  lia.
Qed.

Lemma py_getitem_nth {A} (l : list A) (i : Z) :
  0 <= i < Z.of_nat (length l) ->
  exists x, py_getitem l i = Ok x /\ nth_error l (Z.to_nat i) = Some x.
Proof.
  intros Hi. unfold py_getitem.
  assert (E1 : (i <? 0) = false) by (apply Z.ltb_ge; lia).
  rewrite E1.
  assert (E2 : (0 <=? i) && (i <? Z.of_nat (length l)) = true).
  { apply andb_true_intro. split; [apply Z.leb_le|apply Z.ltb_lt]; lia. }
  rewrite E2.
  destruct (nth_error l (Z.to_nat i)) as [x|] eqn:E.
  - exists x. split; reflexivity.
  - apply nth_error_None in E. lia.
Qed.

(** C6, amended. For every percentage from 0 to 999 and every ramp of 1
    to 25 glyphs, the glyph of the formatter is the one at the index
    [min(L - 1, ceil(p * (L - 1) / 100))] of exact arithmetic. *)
Theorem glyph_follows_exact_formula cfg perc p :
  PyStr.to_Z perc = Some p ->
  0 <= p <= 999 ->
  (1 <= length (blocks cfg) <= 25)%nat ->
  exists g,
    Py3status.glyph cfg perc = Ok g
    /\ nth_error (blocks cfg)
         (Z.to_nat (spec_glyph_index p (Z.of_nat (length (blocks cfg))))) = Some g.
Proof.
  intros Hperc Hp HL.
  unfold Py3status.glyph, Pactl.int_of_perc. rewrite Hperc. simpl.
  rewrite glyph_index_exact by lia. simpl.
  apply py_getitem_nth.
  apply spec_glyph_index_range; lia.
Qed.

(** C6 as stated fails.
    With 26 glyphs the two differ: 28/100 rounds up in binary64, and its
    product with 25 is above 7. *)
Lemma glyph_counterexample_26 :
  glyph_index 28 26 = Ok 8
  /\ spec_glyph_index 28 26 = 7
  /\ Py3status.glyph (with_blocks letters default_config) "28" = Ok "i"
  /\ nth_error letters (Z.to_nat (spec_glyph_index 28 26)) = Some "h".
Proof. repeat split; vm_compute; reflexivity. Qed.

(** *** The colour *)

(** C3, amended. For every known percentage that is not muted the
    colour of the reply is the constant [#FFFFFF], whatever the
    configured thresholds are. *)
Theorem known_unmuted_color_is_white env cfg st out muted perc g :
  command_output env (runs st) (listing_query cfg) = Some out ->
  re_search env (re_volume st) (PyStr.strip out) = Some [muted; perc] ->
  String.eqb muted "yes" = false ->
  Py3status.glyph cfg perc = Ok g ->
  Py3status.volume_status env cfg st
  = (Ok {| cached_until := time_in env (cache_timeout cfg);
           full_text := safe_format env (format cfg)
             {| icon := Some g; percentage := perc;
                shown_sink_name := shown_selection st |};
           color := Some "#FFFFFF" |}, st).
Proof.
  intros Hout Hre Hm Hg.
  rewrite volume_status_cases.
  rewrite (get_volume_match env cfg st out muted perc Hout Hre).
  rewrite Hm. simpl. rewrite Hg. reflexivity.
Qed.

(** The thresholds play no part: two configurations that differ only in
    [thresholds] give the same reply. *)
Lemma volume_status_ignores_thresholds env cfg ths st :
  Py3status.volume_status env
    {| blocks := blocks cfg;
       button_left := button_left cfg; button_right := button_right cfg;
       scroll_up := scroll_up cfg; scroll_down := scroll_down cfg;
       cache_timeout := cache_timeout cfg;
       format := format cfg; format_muted := format_muted cfg;
       is_input := is_input cfg; max_volume := max_volume cfg;
       thresholds := ths; volume_delta := volume_delta cfg |} st
  = Py3status.volume_status env cfg st.
Proof. destruct cfg; reflexivity. Qed.

(** C3 as stated fails.
    With the default thresholds the specification asks for the label
    [degraded] at 35 percent and [bad] at 0 percent; the reply is white
    both times. *)
Lemma color_counterexample_35 :
  color_of (Py3status.volume_status (playing "35") default_config idle) = Some (Some "#FFFFFF")
  /\ spec_threshold_label 35 (thresholds default_config) = Some "degraded"
  /\ color_of (Py3status.volume_status (playing "35") default_config idle)
     <> Some (spec_threshold_label 35 (thresholds default_config))
  /\ color_of (Py3status.volume_status (playing "0") default_config idle) = Some (Some "#FFFFFF")
  /\ spec_threshold_label 0 (thresholds default_config) = Some "bad".
Proof. repeat split; vm_compute; try reflexivity; discriminate. Qed.

(** ** Cycling the sinks *)

(** *** The commands of [swap_device] *)

(** A step that leaves the state alone. *)
Ltac same_state :=
  simpl; repeat split; try discriminate; try assumption;
  exists []; rewrite app_nil_r; reflexivity.

Lemma extends_ret {A} (a : A) : extends (ret a).
Proof. intros st. same_state. Qed.

Lemma extends_raise {A} e : extends (@raise A e).
Proof. intros st. same_state. Qed.

Lemma extends_lift {A} (r : result A) : r <> OutOfFuel -> extends (lift r).
Proof. intros Hr st. same_state. Qed.

Lemma extends_gets {A} (f : state -> A) : extends (gets f).
Proof. intros st. same_state. Qed.

Lemma extends_output env cmd : extends (py3_command_output env cmd).
Proof.
  intros st. unfold py3_command_output.
  destruct (command_output env (runs st) cmd); same_state.
Qed.

Lemma extends_run env cmd : extends (py3_command_run env cmd).
Proof.
  intros st. unfold py3_command_run. simpl. repeat split.
  - destruct (command_run env (runs st) cmd); discriminate.
  - exists [cmd]. reflexivity.
Qed.

Lemma extends_bind {A B} (m : M A) (k : A -> M B) :
  extends m -> (forall a, extends (k a)) -> extends (bind m k).
Proof.
  intros Hm Hk st. unfold bind.
  specialize (Hm st).
  destruct (m st) as [[a|e|] st1]; simpl in Hm;
    destruct Hm as (Hfuel & Hsto & Hdev & more & Hruns).
  - destruct (Hk a st1) as (Hfuel' & Hsto' & Hdev' & more' & Hruns').
    repeat split; try congruence.
    exists (more ++ more')%list. rewrite Hruns', Hruns, app_assoc. reflexivity.
  - simpl. repeat split; try discriminate; try assumption. exists more. assumption.
  - congruence.
Qed.

Lemma extends_for_each {A} (l : list A) (body : A -> M unit) :
  (forall x, extends (body x)) -> extends (for_each l body).
Proof.
  intros Hbody. induction l as [|x tl IH]; simpl.
  - apply extends_ret.
  - apply extends_bind; [apply Hbody | intros _; exact IH].
Qed.

Lemma comprehension_ends {A B} (f : A -> result B) (l : list A) :
  (forall x, f x <> OutOfFuel) -> comprehension f l <> OutOfFuel.
Proof.
  intros Hf. induction l as [|x tl IH]; simpl; [discriminate|].
  specialize (Hf x). destruct (f x); simpl; try congruence.
  destruct (comprehension f tl); simpl; congruence.
Qed.

Lemma py_getitem_ends {A} (l : list A) i : py_getitem l i <> OutOfFuel.
Proof.
  unfold py_getitem.
  destruct ((0 <=? _) && _); [|discriminate].
  destruct (nth_error l _); discriminate.
Qed.

Lemma extends_get_sink_inputs env : extends (Pactl.get_sink_inputs env).
Proof.
  unfold Pactl.get_sink_inputs.
  apply extends_bind; [apply extends_output|].
  intros cmd_out. apply extends_lift, comprehension_ends.
  intros x. apply py_getitem_ends.
Qed.

Lemma extends_move_sink_inputs env : extends (Pactl.move_sink_inputs env).
Proof.
  unfold Pactl.move_sink_inputs.
  apply extends_bind; [apply extends_get_sink_inputs|].
  intros inputs. apply extends_for_each. intros x.
  apply extends_bind; [apply extends_gets|]. intros d. apply extends_run.
Qed.

(** The state in which the loop of [swap_device] starts. *)
Lemma swap_device_unfold env cfg i st :
  Pactl.swap_device env cfg (VInt i) st
  = let st1 :=
      add_run (set_default_cmd cfg i)
        (set_re_volume (Pactl.volume_pattern (Pactl.device_type_cap cfg) (PyStr.of_Z i))
           (set_device (VInt i) st)) in
    if command_run env (runs st) (set_default_cmd cfg i)
    then Pactl.move_sink_inputs env st1
    else (Raise CommandError, st1).
Proof.
  unfold Pactl.swap_device, Pactl.update_device, Pactl.set_default_device,
    bind, modify, gets, py3_command_run, set_default_cmd.
  cbn [device set_device set_re_volume runs py_str].
  destruct (command_run env (runs st) _); reflexivity.
Qed.

(** [swap_device] for a list index: it ends, keeps the storage, makes
    the index the working device, and its first command sets the
    default device. *)
Lemma swap_device_effect env cfg i st :
  fst (Pactl.swap_device env cfg (VInt i) st) <> OutOfFuel
  /\ storage (snd (Pactl.swap_device env cfg (VInt i) st)) = storage st
  /\ device (snd (Pactl.swap_device env cfg (VInt i) st)) = VInt i
  /\ exists more,
       runs (snd (Pactl.swap_device env cfg (VInt i) st))
       = (runs st ++ set_default_cmd cfg i :: more)%list.
Proof.
  rewrite swap_device_unfold. cbv zeta.
  destruct (command_run env (runs st) _).
  - match goal with
    | |- context [Pactl.move_sink_inputs env ?s] =>
        destruct (extends_move_sink_inputs env s) as (Hfuel & Hsto & Hdev & more & Hruns)
    end.
    repeat split; try assumption.
    exists more. rewrite Hruns. simpl. rewrite <- app_assoc. reflexivity.
  - simpl. repeat split; try discriminate. exists []. reflexivity.
Qed.

(** *** The loop over suspended sinks *)

Section SkipLoop.

Variables (sink_list : list sink) (delta : Z).

Local Abbreviation n := (Z.of_nat (length sink_list)).

Hypothesis delta_unit : delta = 1 \/ delta = -1.

(** One more turn of the loop on a suspended entry. *)
Lemma skip_suspended_step fuel ind s :
  0 <= ind < n ->
  nth_error sink_list (Z.to_nat ind) = Some s ->
  state_of s = "SUSPENDED" ->
  Py3status.skip_suspended (S fuel) sink_list delta ind
  = Py3status.skip_suspended fuel sink_list delta ((ind + delta) mod n).
Proof.
  intros Hind Hnth Hs. simpl.
  destruct (py_getitem_nth sink_list ind Hind) as (x & Hget & Hx).
  rewrite Hget. simpl.
  assert (x = s) by congruence. subst x.
  rewrite Hs. simpl.
  unfold py_mod.
  assert (E : (n =? 0) = false) by (apply Z.eqb_neq; lia).
  rewrite E. reflexivity.
Qed.

(** The loop stops on an entry that is not suspended. *)
Lemma skip_suspended_stop fuel ind s :
  0 <= ind < n ->
  nth_error sink_list (Z.to_nat ind) = Some s ->
  String.eqb (state_of s) "SUSPENDED" = false ->
  Py3status.skip_suspended (S fuel) sink_list delta ind = Ok ind.
Proof.
  intros Hind Hnth Hs. simpl.
  destruct (py_getitem_nth sink_list ind Hind) as (x & Hget & Hx).
  rewrite Hget. simpl.
  assert (x = s) by congruence. subst x.
  rewrite Hs. reflexivity.
Qed.

(** When every entry is suspended the loop never stops: whatever the
    fuel, it is used up. *)
Lemma skip_suspended_diverges :
  (forall j s, nth_error sink_list j = Some s -> state_of s = "SUSPENDED") ->
  forall fuel ind, 0 <= ind < n ->
    Py3status.skip_suspended fuel sink_list delta ind = OutOfFuel.
Proof.
  intros Hall fuel. induction fuel as [|fuel IH]; intros ind Hind; [reflexivity|].
  destruct (py_getitem_nth sink_list ind Hind) as (x & _ & Hx).
  rewrite (skip_suspended_step fuel ind x Hind Hx (Hall _ _ Hx)).
  apply IH. apply Z.mod_pos_bound. lia.
Qed.

Variable i : Z.

Hypothesis i_range : 0 <= i < n.

(** Only the entry at [i] is not suspended. *)
Hypothesis only_i_awake :
  forall j s, nth_error sink_list j = Some s ->
    (state_of s = "SUSPENDED" <-> Z.of_nat j <> i).

Lemma away_from_i (k : Z) :
  1 <= k < n -> (i + delta * k) mod n <> i.
Proof.
  pose proof i_range as Hi. revert Hi.
  generalize n. intros len Hi Hk Heq.
  pose proof (Z.div_mod (i + delta * k) len ltac:(lia)) as Hdm.
  rewrite Heq in Hdm.
  set (q := (i + delta * k) / len) in Hdm. clearbody q.
  assert (Hq : delta * k = len * q) by lia.
  destruct delta_unit as [Hd | Hd]; rewrite Hd in Hq.
  - assert (q <= 0 \/ 1 <= q) as [Hq0 | Hq1] by lia; nia.
  - assert (q <= -1 \/ 0 <= q) as [Hq0 | Hq1] by lia; nia.
Qed.

Lemma skip_suspended_reaches (m : nat) :
  forall (k : nat) (fuel : nat),
    (k + m = length sink_list - 1)%nat ->
    (m < fuel)%nat ->
    Py3status.skip_suspended fuel sink_list delta
      ((i + delta * (Z.of_nat k + 1)) mod n) = Ok i.
Proof.
  induction m as [|m IH]; intros k fuel Hk Hfuel.
  - destruct fuel as [|fuel]; [lia|].
    assert (Hpos : (i + delta * (Z.of_nat k + 1)) mod n = i).
    { replace (Z.of_nat k + 1) with n by lia.
      rewrite Z.mod_add by lia. apply Z.mod_small. lia. }
    rewrite Hpos.
    destruct (py_getitem_nth sink_list i i_range) as (s & _ & Hs).
    apply (skip_suspended_stop fuel i s i_range Hs).
    destruct (String.eqb_spec (state_of s) "SUSPENDED") as [E|E]; [|reflexivity].
    apply (only_i_awake _ _ Hs) in E. lia.
  - destruct fuel as [|fuel]; [lia|].
    set (pos := (i + delta * (Z.of_nat k + 1)) mod n).
    assert (Hrange : 0 <= pos < n) by (apply Z.mod_pos_bound; lia).
    assert (Hne : pos <> i) by (apply away_from_i; lia).
    destruct (py_getitem_nth sink_list pos Hrange) as (s & _ & Hs).
    assert (Hsusp : state_of s = "SUSPENDED").
    { apply (only_i_awake _ _ Hs). lia. }
    rewrite (skip_suspended_step fuel pos s Hrange Hs Hsusp).
    unfold pos. rewrite Zplus_mod_idemp_l.
    replace (i + delta * (Z.of_nat k + 1) + delta)
      with (i + delta * (Z.of_nat (S k) + 1)) by lia.
    apply IH; lia.
Qed.

(** Started one step away from [i], the loop comes back to [i] within
    as many turns as the list has entries. *)
Lemma skip_suspended_returns fuel :
  (length sink_list <= fuel)%nat ->
  Py3status.skip_suspended fuel sink_list delta ((i + delta) mod n) = Ok i.
Proof.
  intros Hfuel.
  replace (i + delta) with (i + delta * (Z.of_nat 0 + 1)) by lia.
  apply (skip_suspended_reaches (length sink_list - 1)); lia.
Qed.

End SkipLoop.

(** *** Finding the selection *)

Lemma str_eq_value_true s v : str_eq_value s v = true <-> v = VStr s.
Proof.
  destruct v as [| b | z | t]; simpl; try (split; [discriminate | intros H; discriminate H]).
  rewrite String.eqb_eq. split; intros H; [subst; reflexivity | congruence].
Qed.

Lemma get_sink_index_from_Some sink_list v : forall k i,
  Py3status.get_sink_index_from k sink_list v = Some i ->
  k <= i < k + Z.of_nat (length sink_list)
  /\ exists s, nth_error sink_list (Z.to_nat (i - k)) = Some s /\ v = VStr (name s).
Proof.
  induction sink_list as [|s tl IH]; intros k i H; simpl in H; [discriminate|].
  destruct (str_eq_value (name s) v) eqn:E.
  - injection H as <-. split; [simpl length; lia|].
    exists s. rewrite Z.sub_diag. split; [reflexivity|].
    apply str_eq_value_true. exact E.
  - destruct (IH _ _ H) as (Hr & s' & Hs' & Hv).
    split; [simpl length; lia|].
    exists s'. split; [|exact Hv].
    replace (Z.to_nat (i - k)) with (S (Z.to_nat (i - (k + 1)))) by lia.
    exact Hs'.
Qed.

Lemma get_sink_index_from_None sink_list v : forall k,
  (forall s, In s sink_list -> v <> VStr (name s)) ->
  Py3status.get_sink_index_from k sink_list v = None.
Proof.
  induction sink_list as [|s tl IH]; intros k H; simpl; [reflexivity|].
  destruct (str_eq_value (name s) v) eqn:E.
  - apply str_eq_value_true in E. exfalso. apply (H s); [left; reflexivity | exact E].
  - apply IH. intros s' Hin. apply H. right. exact Hin.
Qed.

(** *** The scroll branch of the click handler *)

Section Scroll.

Variables (fuel : nat) (env : Env) (cfg : config) (button : Z) (st : state).
Variables (out : string) (sink_list : list sink).

Hypothesis not_left : button <> button_left cfg.
Hypothesis not_right : button <> button_right cfg.
Hypothesis is_scroll : button = scroll_up cfg \/ button = scroll_down cfg.
Hypothesis in_edit_mode : truthy (edit_mode_of st) = true.
Hypothesis listed : command_output env (runs st) sinks_query = Some out.
Hypothesis parsed : Py3status.parse_sink_list out = Ok sink_list.

Lemma on_click_scroll :
  Py3status.on_click fuel env cfg button st
  = match Py3status.get_sink_index sink_list (selection_of st) with
    | None => (Ok tt, st)
    | Some i =>
        match rbind (py_mod (i + Py3status.scroll_delta cfg) (Z.of_nat (length sink_list)))
                    (Py3status.skip_suspended fuel sink_list (Py3status.scroll_delta cfg)) with
        | Ok ind =>
            match py_getitem sink_list ind with
            | Ok s =>
                Pactl.swap_device env cfg (VInt ind)
                  (set_storage (fun m => <["sink_name" := VStr (name s)]> m) st)
            | Raise e => (Raise e, st)
            | OutOfFuel => (OutOfFuel, st)
            end
        | Raise e => (Raise e, st)
        | OutOfFuel => (OutOfFuel, st)
        end
    end.
Proof.
  unfold Py3status.on_click.
  assert (E1 : (button =? button_left cfg) = false) by (apply Z.eqb_neq; exact not_left).
  assert (E2 : (button =? button_right cfg) = false) by (apply Z.eqb_neq; exact not_right).
  assert (E3 : (button =? scroll_up cfg) || (button =? scroll_down cfg) = true).
  { apply orb_true_iff. destruct is_scroll; [left|right]; apply Z.eqb_eq; assumption. }
  rewrite E1, E2.
  unfold bind at 1. unfold storage_get at 1. unfold gets at 1.
  fold (edit_mode_of st). rewrite in_edit_mode, E3.
  unfold bind at 1. unfold storage_get at 1. unfold gets at 1.
  fold (selection_of st).
  unfold bind at 1. unfold Py3status.get_sink_list, bind at 1, py3_command_output.
  fold sinks_query. rewrite listed. unfold lift at 1. rewrite parsed.
  destruct (Py3status.get_sink_index sink_list (selection_of st)) as [i|]; [|reflexivity].
  unfold bind at 1. unfold lift at 1.
  destruct (py_mod _ _) as [ind0| e |]; reflexivity.
Qed.

End Scroll.

Lemma scroll_delta_unit cfg :
  Py3status.scroll_delta cfg = 1 \/ Py3status.scroll_delta cfg = -1.
Proof.
  unfold Py3status.scroll_delta. destruct (truthy _); [right|left]; reflexivity.
Qed.

(** The step does not depend on the button of the event: with a
    scroll-up button configured (any number but 0) it is always -1. *)
Lemma scroll_delta_backwards cfg :
  scroll_up cfg <> 0 -> Py3status.scroll_delta cfg = -1.
Proof.
  intros H. unfold Py3status.scroll_delta. simpl.
  apply Z.eqb_neq in H. rewrite H. reflexivity.
Qed.

Lemma selection_stored st s :
  selection_of st = VStr s ->
  set_storage (fun m => <["sink_name" := VStr s]> m) st = st.
Proof.
  unfold selection_of, set_storage. intros H.
  destruct st as [sto dev re rn]. simpl in *. f_equal.
  apply insert_id.
  destruct (sto !! "sink_name") as [v|]; simpl in H; [congruence | discriminate].
Qed.

(** C7. In edit mode, a scroll event whose stored selection names no
    entry of the sink list does nothing: the handler returns without
    raising, and the storage, the working device and the commands run are
    what they were. *)
Theorem scroll_with_unknown_selection_is_noop fuel env cfg button st out sink_list :
  button <> button_left cfg ->
  button <> button_right cfg ->
  button = scroll_up cfg \/ button = scroll_down cfg ->
  truthy (edit_mode_of st) = true ->
  command_output env (runs st) sinks_query = Some out ->
  Py3status.parse_sink_list out = Ok sink_list ->
  (forall s, In s sink_list -> selection_of st <> VStr (name s)) ->
  Py3status.on_click fuel env cfg button st = (Ok tt, st).
Proof.
  intros Hl Hr Hs He Hout Hparse Hmiss.
  rewrite (on_click_scroll fuel env cfg button st out sink_list Hl Hr Hs He Hout Hparse).
  unfold Py3status.get_sink_index.
  rewrite (get_sink_index_from_None sink_list (selection_of st) 0 Hmiss).
  reflexivity.
Qed.

(** C1, amended. In edit mode, when the selection is found in the sink
    list and every other sink is [SUSPENDED] while the selected one is
    not, a scroll event ends within as many turns of the loop as there
    are sinks, leaves the stored selection as it was, and does exactly
    what [swap_device] does for the index of the selection: that index
    becomes the working device and the first command run sets it as the
    default device. *)
Theorem scroll_returns_to_only_awake_sink fuel env cfg button st out sink_list i :
  button <> button_left cfg ->
  button <> button_right cfg ->
  button = scroll_up cfg \/ button = scroll_down cfg ->
  truthy (edit_mode_of st) = true ->
  command_output env (runs st) sinks_query = Some out ->
  Py3status.parse_sink_list out = Ok sink_list ->
  Py3status.get_sink_index sink_list (selection_of st) = Some i ->
  (forall j s, nth_error sink_list j = Some s ->
     (state_of s = "SUSPENDED" <-> Z.of_nat j <> i)) ->
  (length sink_list <= fuel)%nat ->
  Py3status.on_click fuel env cfg button st = Pactl.swap_device env cfg (VInt i) st
  /\ fst (Py3status.on_click fuel env cfg button st) <> OutOfFuel
  /\ storage (snd (Py3status.on_click fuel env cfg button st)) = storage st
  /\ device (snd (Py3status.on_click fuel env cfg button st)) = VInt i
  /\ exists more,
       runs (snd (Py3status.on_click fuel env cfg button st))
       = (runs st ++ set_default_cmd cfg i :: more)%list.
Proof.
  intros Hl Hr Hs He Hout Hparse Hidx Honly Hfuel.
  assert (Heq : Py3status.on_click fuel env cfg button st
                = Pactl.swap_device env cfg (VInt i) st).
  { rewrite (on_click_scroll fuel env cfg button st out sink_list Hl Hr Hs He Hout Hparse).
    rewrite Hidx.
    destruct (get_sink_index_from_Some _ _ _ _ Hidx) as (Hrange & s & Hnth & Hsel).
    rewrite Z.sub_0_r in Hnth.
    assert (Hi : 0 <= i < Z.of_nat (length sink_list)) by lia.
    unfold py_mod at 1.
    assert (E : (Z.of_nat (length sink_list) =? 0) = false) by (apply Z.eqb_neq; lia).
    rewrite E. cbn [rbind].
    rewrite (skip_suspended_returns sink_list (Py3status.scroll_delta cfg)
               (scroll_delta_unit cfg) i Hi Honly fuel Hfuel).
    destruct (py_getitem_nth sink_list i Hi) as (x & Hget & Hx).
    rewrite Hget.
    assert (x = s) by congruence. subst x.
    rewrite (selection_stored st (name s) Hsel). reflexivity. }
  split; [exact Heq|].
  rewrite Heq. apply swap_device_effect.
Qed.

(** When every sink is [SUSPENDED], the selected one included, the loop
    of the scroll branch never ends: the handler uses up any fuel. *)
Lemma scroll_all_suspended_never_ends fuel env cfg button st out sink_list i :
  button <> button_left cfg ->
  button <> button_right cfg ->
  button = scroll_up cfg \/ button = scroll_down cfg ->
  truthy (edit_mode_of st) = true ->
  command_output env (runs st) sinks_query = Some out ->
  Py3status.parse_sink_list out = Ok sink_list ->
  Py3status.get_sink_index sink_list (selection_of st) = Some i ->
  (forall j s, nth_error sink_list j = Some s -> state_of s = "SUSPENDED") ->
  Py3status.on_click fuel env cfg button st = (OutOfFuel, st).
Proof.
  intros Hl Hr Hs He Hout Hparse Hidx Hall.
  rewrite (on_click_scroll fuel env cfg button st out sink_list Hl Hr Hs He Hout Hparse).
  rewrite Hidx.
  destruct (get_sink_index_from_Some _ _ _ _ Hidx) as (Hrange & _).
  unfold py_mod at 1.
  assert (E : (Z.of_nat (length sink_list) =? 0) = false) by (apply Z.eqb_neq; lia).
  rewrite E. cbn [rbind].
  rewrite (skip_suspended_diverges sink_list (Py3status.scroll_delta cfg) Hall).
  - reflexivity.
  - apply Z.mod_pos_bound. lia.
Qed.

(** ** Leaving edit mode *)

(** C9, amended. The left click in edit mode clears the flag and
    overwrites the stored selection with the name of the current default
    device as [pactl info] shows it, or with [None] when it shows none;
    nothing else changes and no command is run. *)
Theorem left_click_leaves_edit_mode fuel env cfg st info :
  truthy (edit_mode_of st) = true ->
  command_output env (runs st) info_query = Some info ->
  Py3status.on_click fuel env cfg (button_left cfg) st
  = (Ok tt,
     set_storage (fun m => <["sink_name" := default_device_name cfg info]>
                             (<["edit_mode" := VBool false]> m)) st)
  /\ edit_mode_of (snd (Py3status.on_click fuel env cfg (button_left cfg) st)) = VBool false
  /\ selection_of (snd (Py3status.on_click fuel env cfg (button_left cfg) st))
     = default_device_name cfg info.
Proof.
  intros He Hinfo.
  assert (Heq : Py3status.on_click fuel env cfg (button_left cfg) st
    = (Ok tt,
       set_storage (fun m => <["sink_name" := default_device_name cfg info]>
                               (<["edit_mode" := VBool false]> m)) st)).
  { unfold Py3status.on_click. rewrite Z.eqb_refl.
    unfold bind at 1. unfold storage_get at 1. unfold gets at 1.
    fold (edit_mode_of st). rewrite He.
    unfold bind at 1. unfold storage_set at 1. unfold modify at 1.
    unfold bind at 1. unfold Pactl.get_default_device.
    unfold bind at 1. unfold py3_command_output.
    cbn [runs set_storage]. fold info_query. rewrite Hinfo.
    unfold ret, storage_set, modify, default_device_name.
    destruct st as [sto dev re rn]. reflexivity. }
  rewrite Heq. split; [reflexivity|].
  unfold edit_mode_of, selection_of. cbn [snd storage set_storage].
  split.
  - rewrite lookup_insert_ne by discriminate. rewrite lookup_insert_eq. reflexivity.
  - rewrite lookup_insert_eq. reflexivity.
Qed.

(** ** Choosing the backend *)

Lemma str_in_In x l : Py3status.str_in x l = true <-> In x l.
Proof.
  unfold Py3status.str_in. rewrite existsb_exists. split.
  - intros (y & Hin & Heq). apply String.eqb_eq in Heq. subst. exact Hin.
  - intros Hin. exists x. split; [exact Hin | apply String.eqb_refl].
Qed.

Lemma check_commands_Some env l c :
  check_commands env l = Some c <-> first_available env l c.
Proof.
  induction l as [|x tl IH]; simpl.
  - split; [discriminate|]. intros (before & after & H & _). destruct before; discriminate.
  - destruct (which env x) eqn:E.
    + split.
      * intros [= <-]. exists [], tl. repeat split; [exact E | intros y []].
      * intros (before & after & H & Hc & Hb).
        destruct before as [|b before]; simpl in H; injection H as -> ->; [reflexivity|].
        rewrite (Hb b) in E by (left; reflexivity). discriminate.
    + rewrite IH. split.
      * intros (before & after & -> & Hc & Hb).
        exists (x :: before), after. repeat split; [exact Hc|].
        intros y [<- | Hy]; [exact E | exact (Hb y Hy)].
      * intros (before & after & H & Hc & Hb).
        destruct before as [|b before]; simpl in H; injection H as -> ->; [congruence|].
        exists before, after. repeat split; [exact Hc|].
        intros y Hy. apply Hb. right. exact Hy.
Qed.

Lemma check_commands_None env l :
  check_commands env l = None <-> forall x, In x l -> which env x = false.
Proof.
  induction l as [|x tl IH]; simpl.
  - split; [intros _ y [] | reflexivity].
  - destruct (which env x) eqn:E.
    + split; [discriminate|]. intros H. rewrite (H x) in E by (left; reflexivity). discriminate.
    + rewrite IH. split.
      * intros H y [<- | Hy]; [exact E | exact (H y Hy)].
      * intros H y Hy. apply H. right. exact Hy.
Qed.

Lemma candidate_not_empty env c :
  In c (Py3status.candidates env) -> PyStr.is_empty c = false.
Proof.
  unfold Py3status.candidates.
  destruct (check_commands env ["pulseaudio"]); simpl; intuition (subst; reflexivity).
Qed.

Lemma first_available_In env l c : first_available env l c -> In c l.
Proof.
  intros (before & after & -> & _). apply in_or_app. right. left. reflexivity.
Qed.

Lemma select_command_no_override env command :
  Py3status.no_command command = true ->
  Py3status.select_command env command
  = match check_commands env (Py3status.candidates env) with
    | Some c => Ok c
    | None => Raise (ConfigError STRING_NOT_AVAILABLE)
    end.
Proof.
  intros Hno. unfold Py3status.select_command.
  assert (H : rbind (Ok (check_commands env (Py3status.candidates env)))
                (fun command' : option string =>
                   match command' with
                   | Some cmd => if PyStr.is_empty cmd
                                 then Raise (ConfigError STRING_NOT_AVAILABLE) else Ok cmd
                   | None => Raise (ConfigError STRING_NOT_AVAILABLE)
                   end)
              = match check_commands env (Py3status.candidates env) with
                | Some c => Ok c
                | None => Raise (ConfigError STRING_NOT_AVAILABLE)
                end).
  { simpl. destruct (check_commands env (Py3status.candidates env)) as [c|] eqn:E; [|reflexivity].
    rewrite (candidate_not_empty env c); [reflexivity|].
    apply (first_available_In env). apply check_commands_Some. exact E. }
  destruct command as [cmd|]; [|exact H].
  simpl in Hno. rewrite Hno. exact H.
Qed.

Lemma select_command_override env cmd :
  PyStr.is_empty cmd = false ->
  Py3status.select_command env (Some cmd)
  = if Py3status.str_in cmd Py3status.supported then
      if which env cmd then Ok cmd
      else Raise (ConfigError (COMMAND_NOT_INSTALLED cmd))
    else Raise (ConfigError (STRING_ERROR cmd)).
Proof.
  intros Hne. unfold Py3status.select_command. rewrite Hne.
  destruct (Py3status.str_in cmd Py3status.supported); [|reflexivity].
  simpl. destruct (which env cmd); simpl; rewrite ?Hne; simpl; rewrite ?Hne; reflexivity.
Qed.

(** C8. Backend selection.  Without an override the chosen command is
    the first installed one of the candidate list; an override that is
    supported and installed is chosen as it is.  The selection fails, and
    then always with a configuration error, exactly when the override is
    not a supported backend, or the override is not installed, or there
    is no override and no candidate is installed. *)
Theorem backend_selection env command :
  (forall c,
     Py3status.select_command env command = Ok c <->
     (Py3status.no_command command = true
      /\ first_available env (Py3status.candidates env) c)
     \/ (Py3status.no_command command = false
         /\ command = Some c
         /\ In c Py3status.supported
         /\ which env c = true))
  /\ ((exists msg, Py3status.select_command env command = Raise (ConfigError msg)) <->
      (exists cmd, command = Some cmd /\ Py3status.no_command command = false
                   /\ ~ In cmd Py3status.supported)
      \/ (exists cmd, command = Some cmd /\ Py3status.no_command command = false
                      /\ which env cmd = false)
      \/ (Py3status.no_command command = true
          /\ forall x, In x (Py3status.candidates env) -> which env x = false))
  /\ (forall e, Py3status.select_command env command = Raise e ->
                exists msg, e = ConfigError msg)
  /\ Py3status.select_command env command <> OutOfFuel.
Proof.
  destruct (Py3status.no_command command) eqn:Hno.
  - rewrite (select_command_no_override env command Hno).
    destruct (check_commands env (Py3status.candidates env)) as [c0|] eqn:E.
    + apply check_commands_Some in E as Hfirst.
      repeat split; try discriminate.
      * intros [= <-]. left. split; [reflexivity | exact Hfirst].
      * intros [[_ Hc] | [Hf _]]; [|discriminate].
        apply check_commands_Some in Hc. congruence.
      * intros [msg H]. discriminate.
      * intros [(cmd & _ & Hf & _) | [(cmd & _ & Hf & _) | [_ Hnone]]]; try discriminate.
        apply check_commands_None in Hnone. congruence.
    + repeat split; try discriminate.
      * intros [[_ Hc] | [Hf _]]; [|discriminate].
        apply check_commands_Some in Hc. congruence.
      * intros _. right. right. split; [reflexivity|].
        apply check_commands_None. exact E.
      * intros _. eexists. reflexivity.
      * intros e [= <-]. eexists. reflexivity.
  - destruct command as [cmd|]; [|discriminate]. simpl in Hno.
    rewrite (select_command_override env cmd Hno).
    destruct (Py3status.str_in cmd Py3status.supported) eqn:Es.
    + apply str_in_In in Es as Hin.
      destruct (which env cmd) eqn:Ew.
      * repeat split; try discriminate.
        -- intros [= <-]. right. repeat split; assumption.
        -- intros [[Hf _] | (_ & [= <-] & _)]; [discriminate | reflexivity].
        -- intros [msg H]. discriminate.
        -- intros [(c & [= <-] & _ & Hn) | [(c & [= <-] & _ & Hw) | [Hf _]]];
             [contradiction | congruence | discriminate].
      * repeat split; try discriminate.
        -- intros [[Hf _] | (_ & [= <-] & _ & Hw)]; [discriminate | congruence].
        -- intros _. right. left. exists cmd. repeat split. exact Ew.
        -- intros _. eexists. reflexivity.
        -- intros e [= <-]. eexists. reflexivity.
    + assert (Hnin : ~ In cmd Py3status.supported).
      { intros Hin. apply str_in_In in Hin. congruence. }
      repeat split; try discriminate.
      * intros [[Hf _] | (_ & [= <-] & Hin & _)]; [discriminate | contradiction].
      * intros _. left. exists cmd. repeat split. exact Hnin.
      * intros _. eexists. reflexivity.
      * intros e [= <-]. eexists. reflexivity.
Qed.

(** The backend class is looked up by name, and the module defines only
    [Pactl]: a selection of [amixer] or [pamixer] ends in a [KeyError]. *)
Lemma post_config_hook_other_backends env cfg command cmd st :
  Py3status.select_command env command = Ok cmd ->
  cmd = "amixer" \/ cmd = "pamixer" ->
  Py3status.post_config_hook env cfg command st = (Raise KeyError, st).
Proof.
  intros Hsel Hcmd. unfold Py3status.post_config_hook, bind, lift.
  rewrite Hsel. destruct Hcmd as [-> | ->]; reflexivity.
Qed.

(** * The properties on concrete inputs *)

(** ** Cycling *)

(** C2. With three running sinks [A], [B], [C] and [A] selected, the
    scroll-down button of the default configuration selects [C], the
    sink before [A], and makes index 2 the default: the step is -1, as
    it is for the scroll-up button. *)
Theorem scroll_down_steps_backwards :
  selection_of (snd (Py3status.on_click 3 three_running default_config
                       (scroll_down default_config) (editing "A"))) = VStr "C"
  /\ runs (snd (Py3status.on_click 3 three_running default_config
                  (scroll_down default_config) (editing "A")))
     = [set_default_cmd default_config 2]
  /\ Py3status.on_click 3 three_running default_config
       (scroll_down default_config) (editing "A")
     = Py3status.on_click 3 three_running default_config
         (scroll_up default_config) (editing "A").
Proof. repeat split; vm_compute; reflexivity. Qed.

(** The example of the specification: from [A], with [B] suspended, the
    scroll-down button lands on [C]. *)
Example scroll_down_skips_suspended :
  selection_of (snd (Py3status.on_click 3 middle_suspended default_config
                       (scroll_down default_config) (editing "A"))) = VStr "C".
Proof. vm_compute. reflexivity. Qed.

(** C1 as stated fails: with [A] running and selected and [B]
    suspended, a scroll event runs the command that sets the default
    sink and replaces the working device; the handler is not a no-op. *)
Lemma scroll_single_awake_runs_swap :
  runs (editing "A") = []
  /\ runs (snd (Py3status.on_click 2 awake_and_suspended default_config
                  (scroll_down default_config) (editing "A")))
     = [[VStr "pactl"; VStr "set-default-sink"; VStr "0"]]
  /\ runs (snd (Py3status.on_click 2 awake_and_suspended default_config
                  (scroll_down default_config) (editing "A")))
     <> runs (editing "A")
  /\ device (editing "A") = VStr "0"
  /\ device (snd (Py3status.on_click 2 awake_and_suspended default_config
                    (scroll_down default_config) (editing "A"))) = VInt 0.
Proof. repeat split; vm_compute; try reflexivity; discriminate. Qed.

(** With both sinks suspended the handler does not end, whatever the
    fuel. *)
Lemma scroll_both_suspended_never_ends fuel :
  fst (Py3status.on_click fuel both_suspended default_config
         (scroll_down default_config) (editing "A")) = OutOfFuel.
Proof.
  rewrite (scroll_all_suspended_never_ends fuel both_suspended default_config
             (scroll_down default_config) (editing "A")
             (short_line "0" "A" "SUSPENDED" ++ short_line "1" "B" "SUSPENDED")
             [ {| name := "A"; state_of := "SUSPENDED" |};
               {| name := "B"; state_of := "SUSPENDED" |} ] 0);
    try (vm_compute; congruence).
  - right. reflexivity.
  - intros [|[|[|j]]] s; simpl; intros [= <-]; reflexivity.
Qed.

(** The amended C1 at [A] running and selected, [B] suspended. *)
Lemma scroll_returns_to_only_awake_sink_witness :
  Py3status.on_click 2 awake_and_suspended default_config
    (scroll_down default_config) (editing "A")
  = Pactl.swap_device awake_and_suspended default_config (VInt 0) (editing "A")
  /\ storage (snd (Py3status.on_click 2 awake_and_suspended default_config
                     (scroll_down default_config) (editing "A")))
     = storage (editing "A").
Proof.
  assert (Hl : scroll_down default_config <> button_left default_config)
    by (vm_compute; discriminate).
  assert (Hr : scroll_down default_config <> button_right default_config)
    by (vm_compute; discriminate).
  assert (Honly : forall j s,
            nth_error [ {| name := "A"; state_of := "RUNNING" |};
                        {| name := "B"; state_of := "SUSPENDED" |} ] j = Some s ->
            (state_of s = "SUSPENDED" <-> Z.of_nat j <> 0)).
  { intros [|[|[|j]]] s; simpl; intros [= <-]; simpl; split; intros H;
      try discriminate; try reflexivity; lia. }
  destruct (scroll_returns_to_only_awake_sink 2 awake_and_suspended default_config
              (scroll_down default_config) (editing "A")
              (short_line "0" "A" "RUNNING" ++ short_line "1" "B" "SUSPENDED")
              [ {| name := "A"; state_of := "RUNNING" |};
                {| name := "B"; state_of := "SUSPENDED" |} ] 0
              Hl Hr (or_intror eq_refl) eq_refl eq_refl eq_refl eq_refl Honly
              (le_n 2))
    as (Heq & _ & Hsto & _).
  split; [exact Heq | exact Hsto].
Defined.

(** C7 at a selection [Z] that is not listed. *)
Lemma scroll_with_unknown_selection_is_noop_witness :
  Py3status.on_click 0 awake_and_suspended default_config
    (scroll_up default_config) (editing "Z")
  = (Ok tt, editing "Z").
Proof.
  apply (scroll_with_unknown_selection_is_noop 0 awake_and_suspended default_config
           (scroll_up default_config) (editing "Z")
           (short_line "0" "A" "RUNNING" ++ short_line "1" "B" "SUSPENDED")
           [ {| name := "A"; state_of := "RUNNING" |};
             {| name := "B"; state_of := "SUSPENDED" |} ]).
  - vm_compute; discriminate.
  - vm_compute; discriminate.
  - left. reflexivity.
  - reflexivity.
  - reflexivity.
  - reflexivity.
  - intros s [<- | [<- | []]]; vm_compute; discriminate.
Defined.

(** ** Leaving edit mode *)

(** C9 as stated fails.
    In edit mode with [A] selected while the default sink is [B], the
    left click replaces the selection by [B]; when [pactl info] shows no
    default sink, the selection becomes [None]. *)
Lemma left_click_overwrites_selection :
  selection_of (editing "A") = VStr "A"
  /\ selection_of (snd (Py3status.on_click 0 three_running default_config
                          (button_left default_config) (editing "A"))) = VStr "B"
  /\ selection_of (snd (Py3status.on_click 0 three_running default_config
                          (button_left default_config) (editing "A")))
     <> selection_of (editing "A")
  /\ edit_mode_of (snd (Py3status.on_click 0 three_running default_config
                          (button_left default_config) (editing "A"))) = VBool false
  /\ selection_of (snd (Py3status.on_click 0 (sinks_world [] "") default_config
                          (button_left default_config) (editing "A"))) = VNone.
Proof. repeat split; vm_compute; try reflexivity; discriminate. Qed.

(** The amended C9 with [A] selected and default sink [B]. *)
Lemma left_click_leaves_edit_mode_witness :
  edit_mode_of (snd (Py3status.on_click 0 three_running default_config
                       (button_left default_config) (editing "A"))) = VBool false
  /\ selection_of (snd (Py3status.on_click 0 three_running default_config
                          (button_left default_config) (editing "A")))
     = default_device_name default_config ("Default Sink: B" ++ NL).
Proof.
  exact (proj2 (left_click_leaves_edit_mode 0 three_running default_config (editing "A")
                  ("Default Sink: B" ++ NL) eq_refl eq_refl)).
Defined.

(** ** Volume *)

(** C4 at 98 percent, step 5, ceiling 100. *)
Lemma volume_up_clamps_witness :
  runs (snd (Pactl.volume_up (playing "98") (with_max_volume 100 default_config) 5 idle))
  = [[VStr "pactl"; VStr "--"; VStr "set-sink-volume"; VStr "0"; VStr "100%"]].
Proof.
  refine (proj1 (volume_up_clamps (playing "98") (with_max_volume 100 default_config)
                   idle ("Sink #0" ++ NL) "no" "98" 98 5 eq_refl eq_refl eq_refl) _).
  vm_compute. discriminate.
Defined.

(** Below the ceiling: 50 percent, step 5, ceiling 120. *)
Example volume_up_relative :
  runs (snd (Pactl.volume_up (playing "50") (with_max_volume 120 default_config) 5 idle))
  = [[VStr "pactl"; VStr "--"; VStr "set-sink-volume"; VStr "0"; VStr "+5%"]].
Proof. vm_compute. reflexivity. Qed.

(** C10 in a world whose listing the pattern does not match. *)
Lemma volume_up_unknown_raises_witness :
  Pactl.volume_up (listing None) default_config 5 idle = (Raise TypeError, idle).
Proof.
  exact (volume_up_unknown_raises (listing None) default_config idle
           ("Sink #0" ++ NL) 5 eq_refl eq_refl).
Defined.

(** C5 in the same world: the text shown is the marker alone. *)
Lemma unknown_volume_renders_marker_witness :
  Pactl.get_volume (listing None) default_config idle = (Ok (None, None), idle)
  /\ option_map full_text
       (match fst (Py3status.volume_status (listing None) default_config idle) with
        | Ok r => Some r
        | _ => None
        end) = Some "?".
Proof.
  destruct (unknown_volume_renders_marker (listing None) default_config idle
              ("Sink #0" ++ NL) eq_refl eq_refl) as [Hv Hs].
  split; [exact Hv|]. rewrite Hs. reflexivity.
Defined.

(** The amended C3 at 35 percent with the default configuration. *)
Lemma known_unmuted_color_is_white_witness :
  color_of (Py3status.volume_status (playing "35") default_config idle)
  = Some (Some "#FFFFFF").
Proof.
  rewrite (known_unmuted_color_is_white (playing "35") default_config idle
             ("Sink #0" ++ NL) "no" "35" "É" eq_refl eq_refl eq_refl
             ltac:(vm_compute; reflexivity)).
  reflexivity.
Defined.

(** The amended C6 at nine glyphs and 95 percent. *)
Lemma glyph_follows_exact_formula_witness :
  exists g,
    Py3status.glyph (with_blocks nine_glyphs default_config) "95" = Ok g
    /\ nth_error nine_glyphs (Z.to_nat (spec_glyph_index 95 9)) = Some g.
Proof.
  apply (glyph_follows_exact_formula (with_blocks nine_glyphs default_config) "95" 95).
  - reflexivity.
  - lia.
  - simpl. lia.
Defined.

(** The example of the specification: nine glyphs, 95 percent, the last
    glyph. *)
Example glyph_nine_95 :
  Py3status.glyph (with_blocks nine_glyphs default_config) "95" = Ok "8"
  /\ spec_glyph_index 95 9 = 8.
Proof. split; vm_compute; reflexivity. Qed.

(** * Further properties of the module *)

(** ** The periodic query *)

(** X1. [volume_status] only reads: whatever the world answers and
    whatever the outcome, the storage, the working device, the compiled
    pattern and the list of commands run are what they were. *)
Theorem volume_status_reads_only env cfg st :
  snd (Py3status.volume_status env cfg st) = st.
Proof.
  rewrite volume_status_cases.
  destruct (Pactl.get_volume env cfg st) as [[[[perc|] muted]|e|] st']; try reflexivity.
  destruct (Py3status.opt_truthy muted); [reflexivity|].
  destruct (Py3status.glyph cfg perc); reflexivity.
Qed.

(** X2. A muted volume is shown with [format_muted] and the muted
    colour, with no glyph: the ramp is not consulted and the captured
    percentage is not converted, so the reply exists for any ramp, the
    empty one included. *)
Theorem muted_volume_rendering env cfg st out perc :
  command_output env (runs st) (listing_query cfg) = Some out ->
  re_search env (re_volume st) (PyStr.strip out) = Some ["yes"; perc] ->
  Py3status.volume_status env cfg st
  = (Ok {| cached_until := time_in env (cache_timeout cfg);
           full_text := safe_format env (format_muted cfg)
             {| icon := None; percentage := perc;
                shown_sink_name := shown_selection st |};
           color := Py3status.color_muted env |}, st).
Proof.
  intros Hout Hre.
  rewrite volume_status_cases.
  rewrite (get_volume_match env cfg st out "yes" perc Hout Hre).
  reflexivity.
Qed.

Lemma muted_volume_rendering_witness :
  color_of (Py3status.volume_status (muted_at "35") (with_blocks [] default_config) idle)
  = Some (Some "#FF0000").
Proof.
  rewrite (muted_volume_rendering (muted_at "35") (with_blocks [] default_config) idle
             ("Sink #0" ++ NL) "35" eq_refl eq_refl).
  reflexivity.
Defined.

(** *** The ramp *)

Lemma py_getitem_empty {A} (i : Z) : @py_getitem A [] i = Raise IndexError.
Proof.
  unfold py_getitem. cbn [length].
  set (j := if i <? 0 then i + Z.of_nat 0 else i).
  destruct ((0 <=? j) && (j <? Z.of_nat 0)) eqn:E; [|reflexivity].
  apply andb_true_iff in E. destruct E as [E1 E2].
  apply Z.leb_le in E1. apply Z.ltb_lt in E2. lia.
Qed.

Lemma glyph_defined_table :
  forallb (glyph_defined 0) (seq 0 1000) = true.
Proof. vm_compute. reflexivity. Qed.

(** X3. With an empty ramp a known, unmuted percentage cannot be shown:
    [volume_status] raises [IndexError]. *)
Theorem empty_ramp_raises env cfg st out muted perc p :
  blocks cfg = [] ->
  command_output env (runs st) (listing_query cfg) = Some out ->
  re_search env (re_volume st) (PyStr.strip out) = Some [muted; perc] ->
  String.eqb muted "yes" = false ->
  PyStr.to_Z perc = Some p ->
  0 <= p <= 999 ->
  Py3status.volume_status env cfg st = (Raise IndexError, st).
Proof.
  intros Hb Hout Hre Hm Hperc Hp.
  rewrite volume_status_cases.
  rewrite (get_volume_match env cfg st out muted perc Hout Hre).
  rewrite Hm. cbn [Py3status.opt_truthy].
  assert (Hg : Py3status.glyph cfg perc = Raise IndexError).
  { unfold Py3status.glyph, Pactl.int_of_perc. rewrite Hperc, Hb. cbn [rbind length].
    pose proof glyph_defined_table as T.
    rewrite forallb_forall in T.
    assert (Hin : In (Z.to_nat p) (seq 0 1000)) by (apply in_seq; lia).
    specialize (T _ Hin). unfold glyph_defined in T.
    rewrite Z2Nat.id in T by lia.
    destruct (glyph_index p (Z.of_nat 0)) as [i| |]; try discriminate.
    cbn [rbind]. apply py_getitem_empty. }
  rewrite Hg. reflexivity.
Qed.

Lemma empty_ramp_raises_witness :
  fst (Py3status.volume_status (playing "35") (with_blocks [] default_config) idle)
  = Raise IndexError.
Proof.
  rewrite (empty_ramp_raises (playing "35") (with_blocks [] default_config) idle
             ("Sink #0" ++ NL) "no" "35" 35 eq_refl eq_refl eq_refl eq_refl eq_refl
             ltac:(lia)).
  reflexivity.
Defined.

Lemma ceil_div_mono a b : a <= b -> ceil_div a 100 <= ceil_div b 100.
Proof.
  intros H. unfold ceil_div.
  assert (- b / 100 <= - a / 100) by (apply Z.div_le_mono; lia).
  lia.
Qed.

(** X4. The glyph never goes down when the volume goes up: for ramps of
    1 to 25 glyphs and percentages from 0 to 999, a larger percentage
    gets the same glyph index or a higher one. *)
Theorem glyph_index_monotone p q L i j :
  0 <= p -> p <= q -> q <= 999 ->
  1 <= L <= 25 ->
  glyph_index p L = Ok i ->
  glyph_index q L = Ok j ->
  i <= j.
Proof.
  intros Hp Hpq Hq HL Hi Hj.
  rewrite glyph_index_exact in Hi by lia.
  rewrite glyph_index_exact in Hj by lia.
  injection Hi as <-. injection Hj as <-.
  unfold spec_glyph_index.
  assert (ceil_div (p * (L - 1)) 100 <= ceil_div (q * (L - 1)) 100)
    by (apply ceil_div_mono; nia).
  lia.
Qed.

Lemma glyph_index_monotone_witness :
  glyph_index 50 9 = Ok 4 /\ glyph_index 95 9 = Ok 8 /\ 4 <= 8.
Proof.
  assert (H50 : glyph_index 50 9 = Ok 4) by (vm_compute; reflexivity).
  assert (H95 : glyph_index 95 9 = Ok 8) by (vm_compute; reflexivity).
  repeat split; try assumption.
  exact (glyph_index_monotone 50 95 9 4 8 ltac:(lia) ltac:(lia) ltac:(lia) ltac:(lia)
           H50 H95).
Defined.

(** X5. The ends of the ramp, for 1 to 25 glyphs: silence shows the
    first glyph, and every percentage from 100 up to 999 shows the last
    one. *)
Theorem glyph_ends cfg perc p :
  PyStr.to_Z perc = Some p ->
  (1 <= length (blocks cfg) <= 25)%nat ->
  (p = 0 -> exists g, Py3status.glyph cfg perc = Ok g
                      /\ nth_error (blocks cfg) 0 = Some g)
  /\ (100 <= p <= 999 ->
      exists g, Py3status.glyph cfg perc = Ok g
                /\ nth_error (blocks cfg) (length (blocks cfg) - 1) = Some g).
Proof.
  intros Hperc HL.
  assert (Hgl : 0 <= p <= 999 ->
                exists g, Py3status.glyph cfg perc = Ok g
                  /\ nth_error (blocks cfg)
                       (Z.to_nat (spec_glyph_index p (Z.of_nat (length (blocks cfg)))))
                     = Some g).
  { intros Hr. unfold Py3status.glyph, Pactl.int_of_perc. rewrite Hperc. cbn [rbind].
    rewrite glyph_index_exact by lia. cbn [rbind].
    apply py_getitem_nth. apply spec_glyph_index_range; lia. }
  split; intros Hp.
  - destruct (Hgl ltac:(lia)) as (g & Hg & Hn).
    exists g. split; [exact Hg|].
    assert (E : spec_glyph_index p (Z.of_nat (length (blocks cfg))) = 0).
    { subst p. unfold spec_glyph_index, ceil_div.
      rewrite Z.mul_0_l. change (- (- 0 / 100)) with 0. lia. }
    rewrite E in Hn. exact Hn.
  - destruct (Hgl ltac:(lia)) as (g & Hg & Hn).
    exists g. split; [exact Hg|].
    assert (E : spec_glyph_index p (Z.of_nat (length (blocks cfg)))
                = Z.of_nat (length (blocks cfg)) - 1).
    { unfold spec_glyph_index, ceil_div. apply Z.min_l.
      assert (- (p * (Z.of_nat (length (blocks cfg)) - 1)) / 100
              <= - (Z.of_nat (length (blocks cfg)) - 1)).
      { apply Z.div_le_upper_bound; nia. }
      lia. }
    rewrite E in Hn.
    replace (Z.to_nat (Z.of_nat (length (blocks cfg)) - 1))
      with (length (blocks cfg) - 1)%nat in Hn by lia.
    exact Hn.
Qed.

Lemma glyph_ends_witness :
  exists g, Py3status.glyph (with_blocks nine_glyphs default_config) "150" = Ok g
            /\ nth_error nine_glyphs 8 = Some g.
Proof.
  exact (proj2 (glyph_ends (with_blocks nine_glyphs default_config) "150" 150
                  eq_refl ltac:(simpl; lia)) ltac:(lia)).
Defined.

(** ** Swapping the device *)

(** The loop of [swap_device] when every command returns: one
    [move-sink-input] per stream, in the order of the listing. *)
Lemma for_each_moves env i (inputs : list string) :
  always_runs env ->
  forall sto re rn,
    for_each inputs (fun sink_input =>
      let* d := gets device in
      py3_command_run env
        [VStr "pactl"; VStr "move-sink-input"; VStr sink_input; VStr (py_str d)])
      {| storage := sto; device := VInt i; re_volume := re; runs := rn |}
    = (Ok tt, {| storage := sto; device := VInt i; re_volume := re;
                 runs := rn ++ map (move_cmd i) inputs |}).
Proof.
  intros Hruns. induction inputs as [|x tl IH]; intros sto re rn.
  - simpl. rewrite app_nil_r. reflexivity.
  - cbn [for_each map]. unfold bind at 1. unfold bind at 1.
    unfold gets at 1, py3_command_run at 1. cbn [device runs].
    rewrite Hruns. unfold add_run. cbn [storage device re_volume runs py_str].
    rewrite IH. rewrite <- app_assoc. reflexivity.
Qed.

(** X6. [swap_device] in a world where every command returns: the
    index becomes the working device, the pattern is recompiled for it,
    and the commands run are the [set-default] command followed by one
    [move-sink-input] per listed stream, in order, each to the new
    index. *)
Theorem swap_device_moves_every_stream env cfg i st out inputs :
  always_runs env ->
  command_output env (runs st ++ [set_default_cmd cfg i]) inputs_query = Some out ->
  parse_sink_inputs out = Ok inputs ->
  Pactl.swap_device env cfg (VInt i) st
  = (Ok tt,
     {| storage := storage st;
        device := VInt i;
        re_volume := Pactl.volume_pattern (Pactl.device_type_cap cfg) (PyStr.of_Z i);
        runs := runs st ++ set_default_cmd cfg i :: map (move_cmd i) inputs |}).
Proof.
  intros Hruns Hout Hparse.
  rewrite swap_device_unfold. cbv zeta. rewrite Hruns.
  unfold Pactl.move_sink_inputs, Pactl.get_sink_inputs.
  unfold bind at 1. unfold bind at 1. unfold py3_command_output at 1.
  unfold add_run, set_re_volume, set_device.
  cbn [storage device re_volume runs].
  fold inputs_query. rewrite Hout. unfold lift at 1.
  unfold parse_sink_inputs in Hparse. rewrite Hparse.
  rewrite (for_each_moves env i inputs Hruns).
  rewrite <- app_assoc. reflexivity.
Qed.

Lemma swap_device_moves_every_stream_witness :
  runs (snd (Pactl.swap_device (streams_world ("7 0 12" ++ NL ++ "9 0 15" ++ NL))
               default_config (VInt 1) idle))
  = [[VStr "pactl"; VStr "set-default-sink"; VStr "1"];
     [VStr "pactl"; VStr "move-sink-input"; VStr "7"; VStr "1"];
     [VStr "pactl"; VStr "move-sink-input"; VStr "9"; VStr "1"]].
Proof.
  rewrite (swap_device_moves_every_stream
             (streams_world ("7 0 12" ++ NL ++ "9 0 15" ++ NL)) default_config 1 idle
             ("7 0 12" ++ NL ++ "9 0 15" ++ NL) ["7"; "9"]
             (fun _ _ => eq_refl) eq_refl eq_refl).
  reflexivity.
Defined.

(** X7. When the [set-default] command of [swap_device] fails, the
    error is passed on and no stream is listed or moved, but the backend
    has already switched: the working device and the pattern are those
    of the new index. *)
Theorem swap_device_default_fails env cfg i st :
  command_run env (runs st) (set_default_cmd cfg i) = false ->
  Pactl.swap_device env cfg (VInt i) st
  = (Raise CommandError,
     {| storage := storage st;
        device := VInt i;
        re_volume := Pactl.volume_pattern (Pactl.device_type_cap cfg) (PyStr.of_Z i);
        runs := runs st ++ [set_default_cmd cfg i] |}).
Proof.
  intros Hfail. rewrite swap_device_unfold. cbv zeta. rewrite Hfail. reflexivity.
Qed.

Lemma swap_device_default_fails_witness :
  fst (Pactl.swap_device (refusing three_running) default_config (VInt 2) idle)
  = Raise CommandError
  /\ device (snd (Pactl.swap_device (refusing three_running) default_config (VInt 2) idle))
     = VInt 2.
Proof.
  rewrite (swap_device_default_fails (refusing three_running) default_config 2 idle eq_refl).
  split; reflexivity.
Defined.

(** ** What a click can do *)

Ltac no_run :=
  split; [intros Hc; exact Hc | exists []; split; [rewrite app_nil_r; reflexivity | constructor]].

Lemma click_step_ret {A} cfg (a : A) : click_step cfg (ret a).
Proof. intros st. simpl. no_run. Qed.

Lemma click_step_raise {A} cfg e : click_step cfg (@raise A e).
Proof. intros st. simpl. no_run. Qed.

Lemma click_step_lift {A} cfg (r : result A) : click_step cfg (lift r).
Proof. intros st. simpl. no_run. Qed.

Lemma click_step_gets {A} cfg (f : state -> A) : click_step cfg (gets f).
Proof. intros st. simpl. no_run. Qed.

Lemma click_step_storage_set cfg key v : click_step cfg (storage_set key v).
Proof. intros st. simpl. no_run. Qed.

Lemma click_step_output cfg env cmd : click_step cfg (py3_command_output env cmd).
Proof.
  intros st. unfold py3_command_output.
  destruct (command_output env (runs st) cmd); simpl; no_run.
Qed.

Lemma click_step_run cfg env cmd :
  click_command cfg cmd -> click_step cfg (py3_command_run env cmd).
Proof.
  intros Hcmd st. unfold py3_command_run. simpl. split.
  - intros Hc. exact Hc.
  - exists [cmd]. split; [reflexivity | constructor; [exact Hcmd | constructor]].
Qed.

Lemma click_step_bind {A B} cfg (m : M A) (k : A -> M B) :
  click_step cfg m -> (forall a, click_step cfg (k a)) -> click_step cfg (bind m k).
Proof.
  intros Hm Hk st. unfold bind.
  specialize (Hm st).
  destruct (m st) as [[a|e|] st1]; simpl in Hm; destruct Hm as (Hc & more & Hruns & HP);
    try (simpl; split; [exact Hc | exists more; split; assumption]).
  destruct (Hk a st1) as (Hc' & more' & Hruns' & HP').
  split; [intros H; apply Hc', Hc, H|].
  exists (more ++ more')%list. split.
  - rewrite Hruns', Hruns, app_assoc. reflexivity.
  - apply Forall_app. split; assumption.
Qed.

Lemma click_step_for_each {A} cfg (l : list A) (body : A -> M unit) :
  (forall x, click_step cfg (body x)) -> click_step cfg (for_each l body).
Proof.
  intros Hbody. induction l as [|x tl IH]; simpl.
  - apply click_step_ret.
  - apply click_step_bind; [apply Hbody | intros _; exact IH].
Qed.

Lemma click_step_move_sink_inputs cfg env : click_step cfg (Pactl.move_sink_inputs env).
Proof.
  unfold Pactl.move_sink_inputs, Pactl.get_sink_inputs.
  apply click_step_bind.
  - apply click_step_bind; [apply click_step_output | intros; apply click_step_lift].
  - intros inputs. apply click_step_for_each. intros x.
    apply click_step_bind; [apply click_step_gets|]. intros d.
    apply click_step_run. exists "move-sink-input", [VStr x; VStr (py_str d)].
    split; [reflexivity | right; left; reflexivity].
Qed.

Lemma click_step_swap_device cfg env i : click_step cfg (Pactl.swap_device env cfg (VInt i)).
Proof.
  intros st. rewrite swap_device_unfold. cbv zeta.
  set (st1 := add_run _ _).
  assert (Hc1 : consistent cfg st1) by reflexivity.
  assert (Hr1 : runs st1 = (runs st ++ [set_default_cmd cfg i])%list) by reflexivity.
  assert (Hcmd : click_command cfg (set_default_cmd cfg i)).
  { eexists _, _. split; [reflexivity | left; reflexivity]. }
  destruct (command_run env (runs st) _).
  - destruct (click_step_move_sink_inputs cfg env st1) as (Hc & more & Hruns & HP).
    split; [intros _; exact (Hc Hc1)|].
    exists (set_default_cmd cfg i :: more). split.
    + rewrite Hruns, Hr1, <- app_assoc. reflexivity.
    + constructor; assumption.
  - simpl. split; [intros _; exact Hc1|].
    exists [set_default_cmd cfg i]. split; [exact Hr1 | constructor; [exact Hcmd | constructor]].
Qed.

Lemma click_step_toggle_mute cfg env : click_step cfg (Pactl.toggle_mute env cfg).
Proof.
  unfold Pactl.toggle_mute.
  apply click_step_bind; [apply click_step_gets|]. intros d.
  apply click_step_run. eexists _, _. split; [reflexivity | right; right; left; reflexivity].
Qed.

Lemma click_step_get_default_device cfg env :
  click_step cfg (Pactl.get_default_device env cfg true).
Proof.
  unfold Pactl.get_default_device.
  apply click_step_bind; [apply click_step_output | intros; apply click_step_ret].
Qed.

Lemma click_step_on_click fuel env cfg button :
  click_step cfg (Py3status.on_click fuel env cfg button).
Proof.
  unfold Py3status.on_click.
  destruct (button =? button_left cfg).
  { apply click_step_bind; [apply click_step_gets|]. intros edit_mode.
    apply click_step_bind; [apply click_step_storage_set|]. intros _.
    apply click_step_bind; [apply click_step_get_default_device|]. intros d.
    apply click_step_storage_set. }
  destruct (button =? button_right cfg).
  { apply click_step_toggle_mute. }
  apply click_step_bind; [apply click_step_gets|]. intros edit_mode.
  destruct (truthy edit_mode); [|apply click_step_ret].
  destruct ((button =? scroll_up cfg) || (button =? scroll_down cfg)); [|apply click_step_ret].
  apply click_step_bind; [apply click_step_gets|]. intros sink_name.
  apply click_step_bind.
  { unfold Py3status.get_sink_list.
    apply click_step_bind; [apply click_step_output | intros; apply click_step_lift]. }
  intros sink_list.
  destruct (Py3status.get_sink_index sink_list sink_name) as [i|]; [|apply click_step_ret].
  apply click_step_bind; [apply click_step_lift|]. intros ind0.
  apply click_step_bind; [apply click_step_lift|]. intros ind.
  apply click_step_bind; [apply click_step_lift|]. intros s.
  apply click_step_bind; [apply click_step_storage_set|]. intros _.
  apply click_step_swap_device.
Qed.

(** X8. Every click keeps the backend coherent: if the compiled pattern
    is the one for the working device before [on_click], it is so
    after, for every button, in every world, whatever the outcome. *)
Theorem on_click_keeps_pattern fuel env cfg button st :
  consistent cfg st ->
  consistent cfg (snd (Py3status.on_click fuel env cfg button st)).
Proof.
  intros Hc. apply (click_step_on_click fuel env cfg button st). exact Hc.
Qed.

Lemma on_click_keeps_pattern_witness :
  consistent default_config
    (snd (Py3status.on_click 3 three_running default_config
            (scroll_up default_config) (editing "A"))).
Proof.
  apply on_click_keeps_pattern. reflexivity.
Defined.

Lemma click_command_not_volume cfg cmd :
  click_command cfg cmd -> forall st change, cmd <> set_volume_cmd cfg st change.
Proof.
  intros (verb & rest & -> & Hin) st change Heq.
  unfold set_volume_cmd in Heq. injection Heq as Hverb _.
  subst verb. unfold click_verbs, Pactl.device_type in Hin.
  destruct (is_input cfg); simpl in Hin;
    destruct Hin as [H | [H | [H | []]]]; discriminate.
Qed.

(** X9. A click never changes the volume.  The commands [on_click] runs
    are only [set-default], [move-sink-input] and [mute] commands; none
    of them is a command of [volume_up] or [volume_down], for any
    button and in either mode. *)
Theorem on_click_runs_no_volume_command fuel env cfg button st :
  exists more,
    runs (snd (Py3status.on_click fuel env cfg button st)) = (runs st ++ more)%list
    /\ Forall (click_command cfg) more
    /\ forall cmd st0 change, In cmd more -> cmd <> set_volume_cmd cfg st0 change.
Proof.
  destruct (click_step_on_click fuel env cfg button st) as (_ & more & Hruns & HP).
  exists more. repeat split; try assumption.
  intros cmd st0 change Hin.
  rewrite Forall_forall in HP.
  apply click_command_not_volume, HP, list_elem_of_In, Hin.
Qed.

(** ** Cycling, in general *)

Section Cycle.

Variables (sink_list : list sink) (delta : Z).

Hypothesis delta_unit : delta = 1 \/ delta = -1.

Local Abbreviation len := (Z.of_nat (length sink_list)).

Lemma awake_not_suspended s :
  awake s = false -> state_of s = "SUSPENDED".
Proof.
  unfold awake. intros H. apply negb_false_iff in H. apply String.eqb_eq. exact H.
Qed.

(** If the [k]-th position after [start] holds an awake sink, the loop
    started at [start] stops on an awake sink within [k + 1] tests. *)
Lemma skip_suspended_finds (k : nat) :
  forall start fuel,
    0 <= start < len ->
    (k < fuel)%nat ->
    (exists s, nth_error sink_list (Z.to_nat ((start + delta * Z.of_nat k) mod len)) = Some s
               /\ awake s = true) ->
    exists ind s,
      Py3status.skip_suspended fuel sink_list delta start = Ok ind
      /\ 0 <= ind < len
      /\ nth_error sink_list (Z.to_nat ind) = Some s
      /\ awake s = true.
Proof.
  induction k as [|k IH]; intros start fuel Hstart Hfuel (s & Hs & Haw);
    (destruct fuel as [|fuel]; [lia|]).
  - replace (start + delta * Z.of_nat 0) with start in Hs by lia.
    rewrite Z.mod_small in Hs by lia.
    exists start, s. repeat split; try lia; try assumption.
    apply (skip_suspended_stop sink_list delta fuel start s Hstart Hs).
    unfold awake in Haw. apply negb_true_iff. exact Haw.
  - destruct (py_getitem_nth sink_list start Hstart) as (s0 & _ & Hs0).
    destruct (awake s0) eqn:E0.
    + exists start, s0. repeat split; try lia; try assumption.
      apply (skip_suspended_stop sink_list delta fuel start s0 Hstart Hs0).
      unfold awake in E0. apply negb_true_iff. exact E0.
    + rewrite (skip_suspended_step sink_list delta fuel start s0 Hstart Hs0
                 (awake_not_suspended s0 E0)).
      apply IH.
      * apply Z.mod_pos_bound. lia.
      * lia.
      * exists s. split; [|exact Haw].
        rewrite Zplus_mod_idemp_l.
        replace (start + delta + delta * Z.of_nat k)
          with (start + delta * Z.of_nat (S k)) by lia.
        exact Hs.
Qed.

(** Every position is reached from [start] in fewer steps than there
    are sinks. *)
Lemma reachable start j :
  0 <= start < len -> 0 <= j < len ->
  exists k, (k < length sink_list)%nat /\ (start + delta * Z.of_nat k) mod len = j.
Proof.
  intros Hstart Hj.
  exists (Z.to_nat ((delta * (j - start)) mod len)).
  assert (Hb : 0 <= (delta * (j - start)) mod len < len) by (apply Z.mod_pos_bound; lia).
  split; [lia|].
  rewrite Z2Nat.id by lia.
  rewrite <- Zplus_mod_idemp_r, Zmult_mod_idemp_r, Zplus_mod_idemp_r.
  replace (start + delta * (delta * (j - start))) with j
    by (destruct delta_unit as [-> | ->]; lia).
  apply Z.mod_small. exact Hj.
Qed.

(** With an awake sink in the list, the loop stops on an awake sink
    within as many tests as there are sinks, wherever it starts. *)
Lemma skip_suspended_ends start fuel :
  0 <= start < len ->
  (length sink_list <= fuel)%nat ->
  (exists j s, nth_error sink_list j = Some s /\ awake s = true) ->
  exists ind s,
    Py3status.skip_suspended fuel sink_list delta start = Ok ind
    /\ 0 <= ind < len
    /\ nth_error sink_list (Z.to_nat ind) = Some s
    /\ awake s = true.
Proof.
  intros Hstart Hfuel (j & s & Hs & Haw).
  assert (Hj : 0 <= Z.of_nat j < len).
  { split; [lia|]. apply Nat2Z.inj_lt. apply nth_error_Some. congruence. }
  destruct (reachable start (Z.of_nat j) Hstart Hj) as (k & Hk & Hpos).
  apply (skip_suspended_finds k); [exact Hstart | lia |].
  exists s. rewrite Hpos, Nat2Z.id. split; assumption.
Qed.

End Cycle.

Lemma awake_or_all_suspended (sink_list : list sink) :
  (exists j s, nth_error sink_list j = Some s /\ awake s = true)
  \/ (forall j s, nth_error sink_list j = Some s -> state_of s = "SUSPENDED").
Proof.
  destruct (existsb awake sink_list) eqn:E.
  - left. apply existsb_exists in E. destruct E as (s & Hin & Haw).
    apply In_nth_error in Hin. destruct Hin as (j & Hj). exists j, s. split; assumption.
  - right. intros j s Hs. apply awake_not_suspended.
    destruct (awake s) eqn:Haw; [|reflexivity].
    assert (existsb awake sink_list = true).
    { apply existsb_exists. exists s. split; [|exact Haw].
      apply nth_error_In with j. exact Hs. }
    congruence.
Qed.

(** The scroll branch when some sink is awake. *)
Lemma scroll_lands fuel env cfg button st out sink_list i :
  button <> button_left cfg ->
  button <> button_right cfg ->
  button = scroll_up cfg \/ button = scroll_down cfg ->
  truthy (edit_mode_of st) = true ->
  command_output env (runs st) sinks_query = Some out ->
  Py3status.parse_sink_list out = Ok sink_list ->
  Py3status.get_sink_index sink_list (selection_of st) = Some i ->
  (exists j s, nth_error sink_list j = Some s /\ awake s = true) ->
  (length sink_list <= fuel)%nat ->
  exists ind s,
    0 <= ind < Z.of_nat (length sink_list)
    /\ nth_error sink_list (Z.to_nat ind) = Some s
    /\ awake s = true
    /\ Py3status.on_click fuel env cfg button st
       = Pactl.swap_device env cfg (VInt ind)
           (set_storage (fun m => <["sink_name" := VStr (name s)]> m) st).
Proof.
  intros Hl Hr Hs He Hout Hparse Hidx Haw Hfuel.
  rewrite (on_click_scroll fuel env cfg button st out sink_list Hl Hr Hs He Hout Hparse).
  rewrite Hidx.
  destruct (get_sink_index_from_Some _ _ _ _ Hidx) as (Hrange & _).
  unfold py_mod at 1.
  assert (E : (Z.of_nat (length sink_list) =? 0) = false) by (apply Z.eqb_neq; lia).
  rewrite E. cbn [rbind].
  destruct (skip_suspended_ends sink_list (Py3status.scroll_delta cfg)
              (scroll_delta_unit cfg)
              ((i + Py3status.scroll_delta cfg) mod Z.of_nat (length sink_list)) fuel
              ltac:(apply Z.mod_pos_bound; lia) Hfuel Haw)
    as (ind & s & Hskip & Hind & Hnth & Hs_awake).
  rewrite Hskip.
  destruct (py_getitem_nth sink_list ind Hind) as (x & Hget & Hx).
  rewrite Hget. assert (x = s) by congruence. subst x.
  exists ind, s. repeat split; try lia; assumption.
Qed.

(** X10. Cycling never selects a suspended sink.  In edit mode, when the
    selection is listed and some sink is not [SUSPENDED], a scroll event
    ends within as many tests as there are sinks; the selection it
    stores is the name of a listed sink that is not [SUSPENDED], and the
    index of that sink becomes the working device. *)
Theorem scroll_selects_awake_sink fuel env cfg button st out sink_list i :
  button <> button_left cfg ->
  button <> button_right cfg ->
  button = scroll_up cfg \/ button = scroll_down cfg ->
  truthy (edit_mode_of st) = true ->
  command_output env (runs st) sinks_query = Some out ->
  Py3status.parse_sink_list out = Ok sink_list ->
  Py3status.get_sink_index sink_list (selection_of st) = Some i ->
  (exists j s, nth_error sink_list j = Some s /\ awake s = true) ->
  (length sink_list <= fuel)%nat ->
  fst (Py3status.on_click fuel env cfg button st) <> OutOfFuel
  /\ exists ind s,
       nth_error sink_list (Z.to_nat ind) = Some s
       /\ state_of s <> "SUSPENDED"
       /\ selection_of (snd (Py3status.on_click fuel env cfg button st)) = VStr (name s)
       /\ device (snd (Py3status.on_click fuel env cfg button st)) = VInt ind.
Proof.
  intros Hl Hr Hs He Hout Hparse Hidx Haw Hfuel.
  destruct (scroll_lands fuel env cfg button st out sink_list i
              Hl Hr Hs He Hout Hparse Hidx Haw Hfuel)
    as (ind & s & Hind & Hnth & Hs_awake & Heq).
  rewrite Heq.
  destruct (swap_device_effect env cfg ind
              (set_storage (fun m => <["sink_name" := VStr (name s)]> m) st))
    as (Hends & Hsto & Hdev & _).
  split; [exact Hends|].
  exists ind, s. repeat split; try assumption.
  - intros Hsusp. unfold awake in Hs_awake. rewrite Hsusp in Hs_awake. discriminate.
  - unfold selection_of. rewrite Hsto. cbn [storage set_storage].
    rewrite lookup_insert_eq. reflexivity.
Qed.

Lemma scroll_selects_awake_sink_witness :
  fst (Py3status.on_click 3 middle_suspended default_config
         (scroll_up default_config) (editing "C")) <> OutOfFuel
  /\ selection_of (snd (Py3status.on_click 3 middle_suspended default_config
                          (scroll_up default_config) (editing "C"))) = VStr "A".
Proof.
  assert (Hl : scroll_up default_config <> button_left default_config)
    by (vm_compute; discriminate).
  assert (Hr : scroll_up default_config <> button_right default_config)
    by (vm_compute; discriminate).
  destruct (scroll_selects_awake_sink 3 middle_suspended default_config
              (scroll_up default_config) (editing "C")
              (short_line "0" "A" "RUNNING" ++ short_line "1" "B" "SUSPENDED"
               ++ short_line "2" "C" "RUNNING")
              [ {| name := "A"; state_of := "RUNNING" |};
                {| name := "B"; state_of := "SUSPENDED" |};
                {| name := "C"; state_of := "RUNNING" |} ] 2
              Hl Hr (or_introl eq_refl) eq_refl eq_refl eq_refl eq_refl
              (ex_intro _ 0%nat (ex_intro _ {| name := "A"; state_of := "RUNNING" |}
                                   (conj eq_refl eq_refl)))
              (le_n 3))
    as (Hends & _).
  split; [exact Hends | vm_compute; reflexivity].
Defined.

(** X11. The scroll handler ends exactly when some listed sink is not
    [SUSPENDED]: in edit mode with a listed selection, some amount of
    fuel lets [on_click] finish if and only if the list holds a sink
    whose state is not [SUSPENDED]. *)
Theorem scroll_ends_iff_some_sink_awake env cfg button st out sink_list i :
  button <> button_left cfg ->
  button <> button_right cfg ->
  button = scroll_up cfg \/ button = scroll_down cfg ->
  truthy (edit_mode_of st) = true ->
  command_output env (runs st) sinks_query = Some out ->
  Py3status.parse_sink_list out = Ok sink_list ->
  Py3status.get_sink_index sink_list (selection_of st) = Some i ->
  ((exists fuel, fst (Py3status.on_click fuel env cfg button st) <> OutOfFuel)
   <-> (exists j s, nth_error sink_list j = Some s /\ state_of s <> "SUSPENDED")).
Proof.
  intros Hl Hr Hs He Hout Hparse Hidx. split.
  - intros (fuel & Hends).
    destruct (awake_or_all_suspended sink_list) as [(j & s & Hj & Haw) | Hall].
    + exists j, s. split; [exact Hj|].
      intros Hsusp. unfold awake in Haw. rewrite Hsusp in Haw. discriminate.
    + exfalso. apply Hends.
      rewrite (on_click_scroll fuel env cfg button st out sink_list Hl Hr Hs He Hout Hparse).
      rewrite Hidx.
      destruct (get_sink_index_from_Some _ _ _ _ Hidx) as (Hrange & _).
      unfold py_mod at 1.
      assert (E : (Z.of_nat (length sink_list) =? 0) = false) by (apply Z.eqb_neq; lia).
      rewrite E. cbn [rbind].
      rewrite (skip_suspended_diverges sink_list (Py3status.scroll_delta cfg) Hall);
        [reflexivity | apply Z.mod_pos_bound; lia].
  - intros (j & s & Hj & Hns).
    exists (length sink_list).
    assert (Haw : exists j s, nth_error sink_list j = Some s /\ awake s = true).
    { exists j, s. split; [exact Hj|]. unfold awake. apply negb_true_iff.
      apply String.eqb_neq. exact Hns. }
    destruct (scroll_lands (length sink_list) env cfg button st out sink_list i
                Hl Hr Hs He Hout Hparse Hidx Haw (le_n _))
      as (ind & s' & _ & _ & _ & Heq).
    rewrite Heq. apply swap_device_effect.
Qed.

Lemma scroll_ends_iff_some_sink_awake_witness :
  exists fuel,
    fst (Py3status.on_click fuel three_running default_config
           (scroll_down default_config) (editing "B")) <> OutOfFuel.
Proof.
  assert (Hl : scroll_down default_config <> button_left default_config)
    by (vm_compute; discriminate).
  assert (Hr : scroll_down default_config <> button_right default_config)
    by (vm_compute; discriminate).
  apply (proj2 (scroll_ends_iff_some_sink_awake three_running default_config
                  (scroll_down default_config) (editing "B")
                  (short_line "0" "A" "RUNNING" ++ short_line "1" "B" "RUNNING"
                   ++ short_line "2" "C" "RUNNING")
                  [ {| name := "A"; state_of := "RUNNING" |};
                    {| name := "B"; state_of := "RUNNING" |};
                    {| name := "C"; state_of := "RUNNING" |} ] 1
                  Hl Hr (or_intror eq_refl) eq_refl eq_refl eq_refl eq_refl)).
  exists 0%nat, {| name := "A"; state_of := "RUNNING" |}.
  split; [reflexivity | discriminate].
Defined.

(** ** The left and the right button *)

Lemma left_click_unfold fuel env cfg st :
  Py3status.on_click fuel env cfg (button_left cfg) st
  = match command_output env (runs st) info_query with
    | Some info =>
        (Ok tt,
         set_storage (fun m => <["sink_name" := default_device_name cfg info]>
                                 (<["edit_mode" := VBool (negb (truthy (edit_mode_of st)))]> m))
                     st)
    | None =>
        (Raise CommandError,
         set_storage (fun m => <["edit_mode" := VBool (negb (truthy (edit_mode_of st)))]> m) st)
    end.
Proof.
  unfold Py3status.on_click. rewrite Z.eqb_refl.
  unfold bind at 1. unfold storage_get at 1. unfold gets at 1.
  fold (edit_mode_of st).
  unfold bind at 1. unfold storage_set at 1. unfold modify at 1.
  unfold bind at 1. unfold Pactl.get_default_device.
  unfold bind at 1. unfold py3_command_output.
  cbn [runs set_storage]. fold info_query.
  destruct (command_output env (runs st) info_query) as [info|].
  - unfold ret, storage_set, modify, default_device_name.
    destruct st as [sto dev re rn]. reflexivity.
  - destruct st as [sto dev re rn]. reflexivity.
Qed.

(** X12. The left click flips the mode and captures the default device:
    when [pactl info] answers, the handler returns, the flag becomes the
    negation of its truth value, the selection becomes the name of the
    default device ([None] if there is none), and neither the backend
    nor the list of commands changes. *)
Theorem left_click_toggles_mode fuel env cfg st info :
  command_output env (runs st) info_query = Some info ->
  fst (Py3status.on_click fuel env cfg (button_left cfg) st) = Ok tt
  /\ edit_mode_of (snd (Py3status.on_click fuel env cfg (button_left cfg) st))
     = VBool (negb (truthy (edit_mode_of st)))
  /\ selection_of (snd (Py3status.on_click fuel env cfg (button_left cfg) st))
     = default_device_name cfg info
  /\ device (snd (Py3status.on_click fuel env cfg (button_left cfg) st)) = device st
  /\ re_volume (snd (Py3status.on_click fuel env cfg (button_left cfg) st)) = re_volume st
  /\ runs (snd (Py3status.on_click fuel env cfg (button_left cfg) st)) = runs st.
Proof.
  intros Hinfo. rewrite left_click_unfold, Hinfo.
  unfold edit_mode_of, selection_of. cbn [fst snd storage set_storage device re_volume runs].
  repeat split.
  - rewrite lookup_insert_ne by discriminate. rewrite lookup_insert_eq. reflexivity.
  - rewrite lookup_insert_eq. reflexivity.
Qed.

Lemma left_click_toggles_mode_witness :
  edit_mode_of (snd (Py3status.on_click 0 three_running default_config
                       (button_left default_config) idle)) = VBool true
  /\ selection_of (snd (Py3status.on_click 0 three_running default_config
                          (button_left default_config) idle)) = VStr "B".
Proof.
  destruct (left_click_toggles_mode 0 three_running default_config idle
              ("Default Sink: B" ++ NL) eq_refl)
    as (_ & Hmode & Hsel & _).
  split; [exact Hmode | exact Hsel].
Defined.

(** X13. Two left clicks bring the mode back: when [pactl info] answers,
    the flag after the second click has the truth value it had before
    the first, the selection is the default device, and no command was
    run. *)
Theorem left_click_twice fuel fuel' env cfg st info :
  command_output env (runs st) info_query = Some info ->
  fst (Py3status.on_click fuel' env cfg (button_left cfg)
         (snd (Py3status.on_click fuel env cfg (button_left cfg) st))) = Ok tt
  /\ edit_mode_of (snd (Py3status.on_click fuel' env cfg (button_left cfg)
                          (snd (Py3status.on_click fuel env cfg (button_left cfg) st))))
     = VBool (truthy (edit_mode_of st))
  /\ selection_of (snd (Py3status.on_click fuel' env cfg (button_left cfg)
                          (snd (Py3status.on_click fuel env cfg (button_left cfg) st))))
     = default_device_name cfg info
  /\ runs (snd (Py3status.on_click fuel' env cfg (button_left cfg)
                  (snd (Py3status.on_click fuel env cfg (button_left cfg) st))))
     = runs st.
Proof.
  intros Hinfo.
  rewrite (left_click_unfold fuel env cfg st), Hinfo. cbn [snd].
  rewrite left_click_unfold. cbn [runs set_storage]. rewrite Hinfo.
  unfold edit_mode_of, selection_of. cbn [fst snd storage set_storage runs].
  repeat split.
  - rewrite lookup_insert_ne by discriminate. rewrite lookup_insert_eq.
    rewrite lookup_insert_ne by discriminate. rewrite lookup_insert_eq.
    simpl. rewrite negb_involutive. reflexivity.
  - rewrite lookup_insert_eq. reflexivity.
Qed.

Lemma left_click_twice_witness :
  edit_mode_of (snd (Py3status.on_click 0 three_running default_config
                       (button_left default_config)
                       (snd (Py3status.on_click 0 three_running default_config
                               (button_left default_config) (editing "A")))))
  = VBool true.
Proof.
  exact (proj1 (proj2 (left_click_twice 0 0 three_running default_config (editing "A")
                         ("Default Sink: B" ++ NL) eq_refl))).
Defined.

(** X14. When [pactl info] cannot be run, the left click raises
    [CommandError] after it has flipped the mode: the flag is negated,
    the selection is the old one, and nothing else changes. *)
Theorem left_click_without_info fuel env cfg st :
  command_output env (runs st) info_query = None ->
  fst (Py3status.on_click fuel env cfg (button_left cfg) st) = Raise CommandError
  /\ edit_mode_of (snd (Py3status.on_click fuel env cfg (button_left cfg) st))
     = VBool (negb (truthy (edit_mode_of st)))
  /\ selection_of (snd (Py3status.on_click fuel env cfg (button_left cfg) st))
     = selection_of st
  /\ device (snd (Py3status.on_click fuel env cfg (button_left cfg) st)) = device st
  /\ runs (snd (Py3status.on_click fuel env cfg (button_left cfg) st)) = runs st.
Proof.
  intros Hinfo. rewrite left_click_unfold, Hinfo.
  unfold edit_mode_of, selection_of. cbn [fst snd storage set_storage device runs].
  repeat split.
  - rewrite lookup_insert_eq. reflexivity.
  - rewrite lookup_insert_ne by discriminate. reflexivity.
Qed.

Lemma left_click_without_info_witness :
  fst (Py3status.on_click 0 no_info default_config (button_left default_config) (editing "A"))
  = Raise CommandError
  /\ edit_mode_of (snd (Py3status.on_click 0 no_info default_config
                          (button_left default_config) (editing "A"))) = VBool false
  /\ selection_of (snd (Py3status.on_click 0 no_info default_config
                          (button_left default_config) (editing "A"))) = VStr "A".
Proof.
  destruct (left_click_without_info 0 no_info default_config (editing "A") eq_refl)
    as (Hr & Hmode & Hsel & _).
  repeat split; assumption.
Defined.



(** ** Looking the selection up *)

Lemma get_sink_index_from_first sink_list v : forall k i,
  Py3status.get_sink_index_from k sink_list v = Some i <->
  (k <= i
   /\ (exists s, nth_error sink_list (Z.to_nat (i - k)) = Some s /\ v = VStr (name s))
   /\ forall j s, (j < Z.to_nat (i - k))%nat -> nth_error sink_list j = Some s ->
                  v <> VStr (name s)).
Proof.
  induction sink_list as [|x tl IH]; intros k i; simpl.
  - split; [discriminate|]. intros (_ & (s & Hs & _) & _).
    destruct (Z.to_nat (i - k)); discriminate.
  - destruct (str_eq_value (name x) v) eqn:E.
    + apply str_eq_value_true in E. split.
      * intros [= <-]. rewrite Z.sub_diag. split; [lia|]. split.
        -- exists x. split; [reflexivity | exact E].
        -- intros j s Hj. simpl in Hj. lia.
      * intros (Hk & _ & Hfirst).
        destruct (Z.to_nat (i - k)) as [|m] eqn:Em.
        -- f_equal. lia.
        -- exfalso. apply (Hfirst 0%nat x); [lia | reflexivity | exact E].
    + assert (Hx : v <> VStr (name x)).
      { intros Hv. apply str_eq_value_true in Hv. congruence. }
      rewrite IH. split.
      * intros (Hk & (s & Hs & Hv) & Hfirst).
        assert (Em : Z.to_nat (i - k) = S (Z.to_nat (i - (k + 1)))) by lia.
        split; [lia|]. split.
        -- exists s. rewrite Em. split; assumption.
        -- intros j s' Hj Hs'. rewrite Em in Hj.
           destruct j as [|j]; simpl in Hs'.
           ++ injection Hs' as <-. exact Hx.
           ++ apply (Hfirst j s'); [lia | exact Hs'].
      * intros (Hk & (s & Hs & Hv) & Hfirst).
        destruct (Z.to_nat (i - k)) as [|m] eqn:Em.
        -- simpl in Hs. injection Hs as <-. contradiction.
        -- assert (Em' : Z.to_nat (i - (k + 1)) = m) by lia.
           split; [lia|]. split.
           ++ exists s. rewrite Em'. split; [exact Hs | exact Hv].
           ++ intros j s' Hj Hs'. rewrite Em' in Hj.
              apply (Hfirst (S j) s'); [lia | exact Hs'].
Qed.

(** X16. [__get_sink_index] returns the first match: the result is [i]
    exactly when the entry at [i] carries the selected name and no
    earlier entry does; with a name listed twice the first entry
    wins.  It finds nothing for a selection that is not a string. *)
Theorem get_sink_index_first_match sink_list v i :
  Py3status.get_sink_index sink_list v = Some i <->
  (0 <= i
   /\ (exists s, nth_error sink_list (Z.to_nat i) = Some s /\ v = VStr (name s))
   /\ forall j s, (j < Z.to_nat i)%nat -> nth_error sink_list j = Some s ->
                  v <> VStr (name s)).
Proof.
  unfold Py3status.get_sink_index.
  rewrite get_sink_index_from_first. rewrite Z.sub_0_r. reflexivity.
Qed.

(** ** Reading the list of sinks *)








Lemma py_getitem_total {A} (l : list A) i :
  (exists x, py_getitem l i = Ok x) \/ py_getitem l i = Raise IndexError.
Proof.
  unfold py_getitem.
  destruct ((0 <=? _) && _); [|right; reflexivity].
  destruct (nth_error l _) as [x|]; [left; exists x; reflexivity | right; reflexivity].
Qed.

Lemma py_getitem_last {A} (l : list A) :
  l <> [] -> exists x, py_getitem l (-1) = Ok x.
Proof.
  intros Hne. unfold py_getitem.
  assert (Hlen : (0 < length l)%nat) by (destruct l; [contradiction | simpl; lia]).
  change (-1 <? 0) with true. cbv iota.
  assert (E : (0 <=? -1 + Z.of_nat (length l)) && (-1 + Z.of_nat (length l) <? Z.of_nat (length l)) = true).
  { apply andb_true_iff. split; [apply Z.leb_le | apply Z.ltb_lt]; lia. }
  rewrite E.
  destruct (nth_error l (Z.to_nat (-1 + Z.of_nat (length l)))) as [x|] eqn:En.
  - exists x. reflexivity.
  - apply nth_error_None in En. lia.
Qed.

Lemma py_getitem_out_of_range {A} (l : list A) i :
  Z.of_nat (length l) <= i -> py_getitem l i = Raise IndexError.
Proof.
  intros H. unfold py_getitem.
  assert (E1 : (i <? 0) = false) by (apply Z.ltb_ge; lia).
  rewrite E1.
  assert (E2 : (0 <=? i) && (i <? Z.of_nat (length l)) = false).
  { apply andb_false_iff. right. apply Z.ltb_ge. lia. }
  rewrite E2. reflexivity.
Qed.

Lemma sink_of_line_ok line :
  (2 <= length (PyStr.split line))%nat ->
  exists s, Py3status.sink_of_line line = Ok s
            /\ nth_error (PyStr.split line) 1 = Some (name s).
Proof.
  intros H. unfold Py3status.sink_of_line.
  destruct (py_getitem_nth (PyStr.split line) 1 ltac:(lia)) as (n1 & Hget & Hn).
  rewrite Hget. cbn [rbind].
  destruct (py_getitem_last (PyStr.split line)) as (sx & Hlast).
  { intros E. rewrite E in H. simpl in H. lia. }
  rewrite Hlast. cbn [rbind].
  eexists. split; [reflexivity | exact Hn].
Qed.

Lemma sink_of_line_short line :
  (length (PyStr.split line) < 2)%nat ->
  Py3status.sink_of_line line = Raise IndexError.
Proof.
  intros H. unfold Py3status.sink_of_line.
  rewrite py_getitem_out_of_range by lia. reflexivity.
Qed.

Lemma sink_of_line_total line :
  (exists s, Py3status.sink_of_line line = Ok s)
  \/ Py3status.sink_of_line line = Raise IndexError.
Proof.
  destruct (le_lt_dec 2 (length (PyStr.split line))) as [H | H].
  - left. destruct (sink_of_line_ok line H) as (s & Hs & _). exists s. exact Hs.
  - right. apply sink_of_line_short. exact H.
Qed.

Lemma short_line_raises lines :
  Exists (fun line => (length (PyStr.split line) < 2)%nat) lines ->
  comprehension Py3status.sink_of_line lines = Raise IndexError.
Proof.
  induction lines as [|line tl IH]; intros Hex.
  - inversion Hex.
  - simpl. destruct (sink_of_line_total line) as [(s & Hs) | Hs].
    + rewrite Hs. cbn [rbind].
      inversion Hex as [? ? Hline | ? ? Htl]; subst.
      * rewrite (sink_of_line_short line Hline) in Hs. discriminate.
      * rewrite (IH Htl). reflexivity.
    + rewrite Hs. reflexivity.
Qed.

(** X18. The listing is read whole or not at all.  If every line holds
    at least two tokens, [__get_sink_list] gives one entry per line; if
    some line holds fewer (an empty line, say), it raises
    [IndexError]. *)
Theorem parse_sink_list_outcome cmd_out :
  (Forall (fun line => (2 <= length (PyStr.split line))%nat) (sink_lines cmd_out) ->
   exists sink_list,
     Py3status.parse_sink_list cmd_out = Ok sink_list
     /\ length sink_list = length (sink_lines cmd_out))
  /\ (Exists (fun line => (length (PyStr.split line) < 2)%nat) (sink_lines cmd_out) ->
      Py3status.parse_sink_list cmd_out = Raise IndexError).
Proof.
  unfold Py3status.parse_sink_list. fold (sink_lines cmd_out).
  generalize (sink_lines cmd_out). intros lines. split.
  - induction lines as [|line tl IH]; intros Hall.
    + exists []. split; reflexivity.
    + inversion Hall as [|? ? Hline Htl]; subst.
      destruct (sink_of_line_ok line Hline) as (s & Hs & _).
      destruct (IH Htl) as (sl & Hsl & Hlen).
      exists (s :: sl). simpl. rewrite Hs. cbn [rbind]. rewrite Hsl. cbn [rbind].
      split; [reflexivity | simpl; rewrite Hlen; reflexivity].
  - apply short_line_raises.
Qed.

Lemma parse_sink_list_outcome_witness :
  Py3status.parse_sink_list (short_line "0" "A" "RUNNING" ++ NL ++ short_line "1" "B" "IDLE")
  = Raise IndexError.
Proof.
  apply (proj2 (parse_sink_list_outcome
                  (short_line "0" "A" "RUNNING" ++ NL ++ short_line "1" "B" "IDLE"))).
  apply Exists_cons_tl. apply Exists_cons_hd. simpl. lia.
Defined.

(** ** Building the backend *)

Lemma candidates_supported env c :
  In c (Py3status.candidates env) -> In c Py3status.supported.
Proof.
  unfold Py3status.candidates, Py3status.supported.
  destruct (check_commands env ["pulseaudio"]); simpl; intuition.
Qed.

(** Whatever is installed and whatever the override, a command that
    the selection returns is one of [amixer], [pamixer] and [pactl]. *)
Lemma select_command_in_supported env command c :
  Py3status.select_command env command = Ok c -> In c Py3status.supported.
Proof.
  intros H.
  destruct (Py3status.no_command command) eqn:Hno.
  - rewrite (select_command_no_override env command Hno) in H.
    destruct (check_commands env (Py3status.candidates env)) as [c0|] eqn:E; [|discriminate].
    injection H as <-.
    apply candidates_supported with env.
    apply (first_available_In env). apply check_commands_Some. exact E.
  - destruct command as [cmd|]; [|discriminate]. simpl in Hno.
    rewrite (select_command_override env cmd Hno) in H.
    destruct (Py3status.str_in cmd Py3status.supported) eqn:Es; [|discriminate].
    destruct (which env cmd); [|discriminate].
    injection H as <-. apply str_in_In. exact Es.
Qed.

Lemma strip_prefix_Some p s r : PyStr.strip_prefix p s = Some r -> s = p ++ r.
Proof.
  revert s. induction p as [|a p IH]; intros s H; simpl in H.
  - injection H as <-. reflexivity.
  - destruct s as [|b s]; [discriminate|].
    destruct (Ascii.eqb_spec a b) as [<- | Hne]; [|discriminate].
    rewrite (IH s H). reflexivity.
Qed.

Lemma string_app_assoc (a b c : string) : (a ++ b) ++ c = a ++ (b ++ c).
Proof.
  induction a as [|x a IH]; [reflexivity|].
  change (String x ((a ++ b) ++ c) = String x (a ++ (b ++ c))).
  f_equal. exact IH.
Qed.

Lemma find_default_device_Some cap lines id :
  Pactl.find_default_device cap lines = Some id ->
  In ("Default " ++ cap ++ ": " ++ id) lines.
Proof.
  induction lines as [|line tl IH]; cbn [Pactl.find_default_device]; [discriminate|].
  destruct (PyStr.strip_prefix ("Default " ++ cap ++ ": ") line) as [r|] eqn:E.
  - intros [= ->]. left. apply strip_prefix_Some in E. rewrite E.
    rewrite !string_app_assoc. reflexivity.
  - intros H. right. apply IH. exact H.
Qed.

Lemma find_device_index_Some id lines idx :
  Pactl.find_device_index id lines = Some idx ->
  exists line rest, In line lines /\ PyStr.split line = idx :: id :: rest.
Proof.
  induction lines as [|line tl IH]; simpl; [discriminate|].
  destruct (PyStr.split line) as [|p0 [|p1 rest]] eqn:E.
  - intros H. destruct (IH H) as (l & r & Hin & Hl). exists l, r. split; [right|]; assumption.
  - intros H. destruct (IH H) as (l & r & Hin & Hl). exists l, r. split; [right|]; assumption.
  - destruct (String.eqb_spec p1 id) as [-> | Hne].
    + intros [= <-]. exists line, rest. split; [left; reflexivity | exact E].
    + intros H. destruct (IH H) as (l & r & Hin & Hl). exists l, r. split; [right|]; assumption.
Qed.

(** [setup] by cases on the two answers of [pactl]. *)
Lemma setup_unfold env cfg d0 st :
  Pactl.setup env cfg d0 st
  = match command_output env (runs st) info_query with
    | None => (Raise CommandError, set_device d0 st)
    | Some info =>
        match Pactl.find_default_device (Pactl.device_type_cap cfg) (PyStr.splitlines info) with
        | None => (Raise RuntimeError, set_device d0 st)
        | Some id =>
            match command_output env (runs st)
                    ["pactl"; "list"; "short"; Pactl.device_type_pl cfg] with
            | None => (Raise CommandError, set_device d0 st)
            | Some out =>
                match Pactl.find_device_index id (PyStr.splitlines out) with
                | None => (Raise RuntimeError, set_device d0 st)
                | Some idx =>
                    (Ok tt,
                     {| storage := storage st; device := VStr idx;
                        re_volume := Pactl.volume_pattern (Pactl.device_type_cap cfg) idx;
                        runs := runs st |})
                end
            end
        end
    end.
Proof.
  unfold Pactl.setup, Pactl.get_default_device, Pactl.get_device_index, Pactl.update_device,
    bind, modify, gets, ret, raise, py3_command_output.
  change (runs (set_device d0 st)) with (runs st). fold info_query.
  destruct (command_output env (runs st) info_query) as [info|]; [|reflexivity].
  destruct (Pactl.find_default_device _ _) as [id|]; [|reflexivity].
  change (runs (set_device d0 st)) with (runs st).
  destruct (command_output env (runs st) _) as [out|]; [|reflexivity].
  destruct (Pactl.find_device_index _ _) as [idx|]; reflexivity.
Qed.

(** X19. What a successful [setup] guarantees: the working device is
    the first token of a line of the short listing whose second token
    is the name that [pactl info] gives as the default, the pattern is
    compiled for it, and the storage and the commands run are
    untouched. *)
Theorem setup_resolves_default_device env cfg d0 st st' :
  Pactl.setup env cfg d0 st = (Ok tt, st') ->
  exists info out id idx line rest,
    command_output env (runs st) info_query = Some info
    /\ In ("Default " ++ Pactl.device_type_cap cfg ++ ": " ++ id) (PyStr.splitlines info)
    /\ command_output env (runs st) ["pactl"; "list"; "short"; Pactl.device_type_pl cfg]
       = Some out
    /\ In line (PyStr.splitlines out)
    /\ PyStr.split line = idx :: id :: rest
    /\ device st' = VStr idx
    /\ consistent cfg st'
    /\ storage st' = storage st
    /\ runs st' = runs st.
Proof.
  rewrite setup_unfold.
  destruct (command_output env (runs st) info_query) as [info|] eqn:Hinfo; [|discriminate].
  destruct (Pactl.find_default_device _ _) as [id|] eqn:Hid; [|discriminate].
  destruct (command_output env (runs st)
              ["pactl"; "list"; "short"; Pactl.device_type_pl cfg])
    as [out|] eqn:Hout; [|discriminate].
  destruct (Pactl.find_device_index _ _) as [idx|] eqn:Hidx; [|discriminate].
  intros [= <-].
  destruct (find_device_index_Some _ _ _ Hidx) as (line & rest & Hin & Hline).
  exists info, out, id, idx, line, rest.
  repeat split; try assumption; try reflexivity.
  apply find_default_device_Some. exact Hid.
Qed.

Lemma setup_resolves_default_device_witness :
  exists st', Pactl.setup setup_world default_config (VInt 0) fresh = (Ok tt, st')
              /\ device st' = VStr "3".
Proof.
  eexists. split; [vm_compute; reflexivity|].
  destruct (setup_resolves_default_device setup_world default_config (VInt 0) fresh _
              eq_refl)
    as (info & out & id & idx & line & rest & _ & _ & _ & _ & _ & Hdev & _).
  reflexivity.
Defined.

(** X20. The module can only be started with [pactl].  If
    [post_config_hook] returns, the command it chose is [pactl], the
    working device is a string, and the pattern is compiled for it; a
    selection of [amixer] or [pamixer] never gets that far. *)
Theorem post_config_hook_needs_pactl env cfg command st cmd st' :
  Py3status.post_config_hook env cfg command st = (Ok cmd, st') ->
  cmd = "pactl"
  /\ (exists idx, device st' = VStr idx)
  /\ consistent cfg st'
  /\ storage st' = storage st
  /\ runs st' = runs st.
Proof.
  unfold Py3status.post_config_hook. unfold bind at 1. unfold lift.
  destruct (Py3status.select_command env command) as [c| |] eqn:Hsel; try discriminate.
  pose proof (select_command_in_supported env command c Hsel) as Hin.
  destruct Hin as [<- | [<- | [<- | []]]]; try discriminate.
  change (Py3status.backend_defined (PyStr.capitalize "pactl")) with true. cbv iota.
  unfold bind. rewrite setup_unfold.
  destruct (command_output env (runs st) info_query) as [info|]; [|discriminate].
  destruct (Pactl.find_default_device _ _) as [id|]; [|discriminate].
  destruct (command_output env (runs st)
              ["pactl"; "list"; "short"; Pactl.device_type_pl cfg])
    as [out|]; [|discriminate].
  destruct (Pactl.find_device_index _ _) as [idx|]; [|discriminate].
  unfold ret. intros [= <- <-].
  repeat split. exists idx. reflexivity.
Qed.

Lemma post_config_hook_needs_pactl_witness :
  exists st',
    Py3status.post_config_hook setup_world default_config None fresh = (Ok "pactl", st')
    /\ device st' = VStr "3".
Proof.
  eexists. split; [vm_compute; reflexivity|].
  destruct (post_config_hook_needs_pactl setup_world default_config None fresh "pactl" _
              eq_refl) as (_ & _ & _ & _ & _).
  reflexivity.
Defined.

(** X21. Automatic selection can pick a backend the module does not
    have.  With no override, if [pulseaudio] and [pamixer] are
    installed, or if [pulseaudio] is missing and [amixer] is installed,
    [post_config_hook] raises [KeyError] and changes nothing, whether or
    not [pactl] is installed. *)
Theorem automatic_selection_can_fail env cfg command st :
  Py3status.no_command command = true ->
  (which env "pulseaudio" = true /\ which env "pamixer" = true)
  \/ (which env "pulseaudio" = false /\ which env "amixer" = true) ->
  Py3status.post_config_hook env cfg command st = (Raise KeyError, st).
Proof.
  intros Hno Hinst.
  destruct Hinst as [[Hpulse Hpa] | [Hpulse Ham]].
  - apply post_config_hook_other_backends with "pamixer"; [|right; reflexivity].
    rewrite (select_command_no_override env command Hno).
    unfold Py3status.candidates. simpl. rewrite Hpulse. simpl. rewrite Hpa. reflexivity.
  - apply post_config_hook_other_backends with "amixer"; [|left; reflexivity].
    rewrite (select_command_no_override env command Hno).
    unfold Py3status.candidates. simpl. rewrite Hpulse. simpl. rewrite Ham. reflexivity.
Qed.

Lemma automatic_selection_can_fail_witness :
  Py3status.post_config_hook
    (scripted [] None ["pulseaudio"; "pamixer"; "pactl"]) default_config None fresh
  = (Raise KeyError, fresh).
Proof.
  apply automatic_selection_can_fail; [reflexivity|].
  left. split; reflexivity.
Defined.

Lemma find_default_device_None cap lines :
  (forall line, In line lines ->
     PyStr.strip_prefix ("Default " ++ cap ++ ": ") line = None) ->
  Pactl.find_default_device cap lines = None.
Proof.
  induction lines as [|line tl IH]; intros H; cbn [Pactl.find_default_device]; [reflexivity|].
  rewrite (H line) by (left; reflexivity).
  apply IH. intros l Hl. apply H. right. exact Hl.
Qed.

(** X22. Without a default device there is no backend.  When [pactl] is
    the chosen command and no line of [pactl info] starts with the
    [Default] prefix of the device type, [post_config_hook] raises
    [RuntimeError]; the short listing is not consulted. *)
Theorem backend_needs_default_device env cfg command st info :
  Py3status.select_command env command = Ok "pactl" ->
  command_output env (runs st) info_query = Some info ->
  (forall line, In line (PyStr.splitlines info) ->
     PyStr.strip_prefix ("Default " ++ Pactl.device_type_cap cfg ++ ": ") line = None) ->
  Py3status.post_config_hook env cfg command st
  = (Raise RuntimeError, set_device (VInt 0) st).
Proof.
  intros Hsel Hinfo Hnone.
  unfold Py3status.post_config_hook. unfold bind at 1. unfold lift. rewrite Hsel.
  change (Py3status.backend_defined (PyStr.capitalize "pactl")) with true. cbv iota.
  unfold bind. rewrite setup_unfold, Hinfo.
  rewrite (find_default_device_None _ _ Hnone). reflexivity.
Qed.

Lemma backend_needs_default_device_witness :
  fst (Py3status.post_config_hook
         (scripted [(info_query, "Server Name: pulseaudio" ++ NL)] None ["pactl"])
         default_config (Some "pactl") fresh)
  = Raise RuntimeError.
Proof.
  rewrite (backend_needs_default_device
             (scripted [(info_query, "Server Name: pulseaudio" ++ NL)] None ["pactl"])
             default_config (Some "pactl") fresh ("Server Name: pulseaudio" ++ NL)
             eq_refl eq_refl).
  - reflexivity.
  - intros line [<- | []]. reflexivity.
Defined.

(** ** Failures on the way *)

(** X23. The streams are moved all or none.  The listing of streams is
    read whole before the first move: if one of its lines is empty of
    tokens, [swap_device] raises after the default has been set and no
    stream has been moved. *)
Theorem swap_device_bad_stream_listing env cfg i st out e :
  command_run env (runs st) (set_default_cmd cfg i) = true ->
  command_output env (runs st ++ [set_default_cmd cfg i]) inputs_query = Some out ->
  parse_sink_inputs out = Raise e ->
  fst (Pactl.swap_device env cfg (VInt i) st) = Raise e
  /\ runs (snd (Pactl.swap_device env cfg (VInt i) st))
     = (runs st ++ [set_default_cmd cfg i])%list
  /\ device (snd (Pactl.swap_device env cfg (VInt i) st)) = VInt i.
Proof.
  intros Hrun Hout Hparse.
  assert (Heq : Pactl.swap_device env cfg (VInt i) st
    = (Raise e,
       {| storage := storage st; device := VInt i;
          re_volume := Pactl.volume_pattern (Pactl.device_type_cap cfg) (PyStr.of_Z i);
          runs := runs st ++ [set_default_cmd cfg i] |})).
  { rewrite swap_device_unfold. cbv zeta. rewrite Hrun.
    unfold Pactl.move_sink_inputs, Pactl.get_sink_inputs.
    unfold bind at 1. unfold bind at 1. unfold py3_command_output at 1.
    unfold add_run, set_re_volume, set_device.
    cbn [storage device re_volume runs].
    fold inputs_query. rewrite Hout. unfold lift at 1.
    unfold parse_sink_inputs in Hparse. rewrite Hparse. reflexivity. }
  rewrite Heq. repeat split; reflexivity.
Qed.

Lemma swap_device_bad_stream_listing_witness :
  fst (Pactl.swap_device (streams_world ("7 0 12" ++ NL ++ NL ++ "9 0 15" ++ NL))
         default_config (VInt 1) idle) = Raise IndexError
  /\ runs (snd (Pactl.swap_device (streams_world ("7 0 12" ++ NL ++ NL ++ "9 0 15" ++ NL))
                  default_config (VInt 1) idle))
     = [[VStr "pactl"; VStr "set-default-sink"; VStr "1"]].
Proof.
  destruct (swap_device_bad_stream_listing
              (streams_world ("7 0 12" ++ NL ++ NL ++ "9 0 15" ++ NL)) default_config 1 idle
              ("7 0 12" ++ NL ++ NL ++ "9 0 15" ++ NL) IndexError
              eq_refl eq_refl eq_refl) as (Hr & Hruns & _).
  split; [exact Hr | exact Hruns].
Defined.

(** X24. A scroll that cannot read the list of sinks changes nothing.
    In edit mode, when the listing command fails the handler raises
    [CommandError], and when a line of the listing is too short it
    raises [IndexError]; in both cases the storage, the backend and the
    commands run are what they were. *)
Theorem scroll_without_listing fuel env cfg button st :
  button <> button_left cfg ->
  button <> button_right cfg ->
  button = scroll_up cfg \/ button = scroll_down cfg ->
  truthy (edit_mode_of st) = true ->
  (command_output env (runs st) sinks_query = None ->
   Py3status.on_click fuel env cfg button st = (Raise CommandError, st))
  /\ (forall out,
        command_output env (runs st) sinks_query = Some out ->
        Exists (fun line => (length (PyStr.split line) < 2)%nat) (sink_lines out) ->
        Py3status.on_click fuel env cfg button st = (Raise IndexError, st)).
Proof.
  intros Hl Hr Hs He.
  assert (E1 : (button =? button_left cfg) = false) by (apply Z.eqb_neq; exact Hl).
  assert (E2 : (button =? button_right cfg) = false) by (apply Z.eqb_neq; exact Hr).
  assert (E3 : (button =? scroll_up cfg) || (button =? scroll_down cfg) = true).
  { apply orb_true_iff. destruct Hs; [left|right]; apply Z.eqb_eq; assumption. }
  assert (Hshape : Py3status.on_click fuel env cfg button st
    = bind (Py3status.get_sink_list env) (fun sink_list =>
        match Py3status.get_sink_index sink_list (selection_of st) with
        | None => ret tt
        | Some i =>
            let* ind := lift (py_mod (i + Py3status.scroll_delta cfg)
                                (Z.of_nat (length sink_list))) in
            let* ind := lift (Py3status.skip_suspended fuel sink_list
                                (Py3status.scroll_delta cfg) ind) in
            let* s := lift (py_getitem sink_list ind) in
            storage_set "sink_name" (VStr (name s)) >>
            Pactl.swap_device env cfg (VInt ind)
        end) st).
  { unfold Py3status.on_click. rewrite E1, E2.
    unfold bind at 1. unfold storage_get at 1. unfold gets at 1.
    fold (edit_mode_of st). rewrite He, E3.
    unfold bind at 1. unfold storage_get at 1. unfold gets at 1.
    reflexivity. }
  rewrite Hshape. unfold Py3status.get_sink_list, bind, py3_command_output.
  fold sinks_query. split.
  - intros Hnone. rewrite Hnone. reflexivity.
  - intros out Hout Hshort. rewrite Hout. unfold lift.
    unfold Py3status.parse_sink_list. fold (sink_lines out).
    rewrite (short_line_raises _ Hshort). reflexivity.
Qed.

Lemma scroll_without_listing_witness :
  Py3status.on_click 3 (sinks_world ["0 A RUNNING" ++ NL; NL] "") default_config
    (scroll_up default_config) (editing "A")
  = (Raise IndexError, editing "A").
Proof.
  apply (proj2 (scroll_without_listing 3 (sinks_world ["0 A RUNNING" ++ NL; NL] "")
                  default_config (scroll_up default_config) (editing "A")
                  ltac:(vm_compute; discriminate) ltac:(vm_compute; discriminate)
                  (or_introl eq_refl) eq_refl)
           ("0 A RUNNING" ++ NL ++ NL) eq_refl).
  apply Exists_cons_tl. apply Exists_cons_hd. simpl. lia.
Defined.

(** X25. Buttons that do nothing.  A click of a button that is neither
    the left nor the right one changes nothing and runs nothing outside
    edit mode, and in edit mode unless it is one of the two scroll
    buttons: outside edit mode the scroll wheel is inert. *)
Theorem other_buttons_are_inert fuel env cfg button st :
  button <> button_left cfg ->
  button <> button_right cfg ->
  truthy (edit_mode_of st) = false
  \/ (button <> scroll_up cfg /\ button <> scroll_down cfg) ->
  Py3status.on_click fuel env cfg button st = (Ok tt, st).
Proof.
  intros Hl Hr Hcase.
  unfold Py3status.on_click.
  apply Z.eqb_neq in Hl. apply Z.eqb_neq in Hr. rewrite Hl, Hr.
  unfold bind, storage_get, gets. fold (edit_mode_of st).
  destruct Hcase as [He | [Hu Hd]].
  - rewrite He. reflexivity.
  - apply Z.eqb_neq in Hu. apply Z.eqb_neq in Hd. rewrite Hu, Hd.
    destruct (truthy (edit_mode_of st)); reflexivity.
Qed.

Lemma other_buttons_are_inert_witness :
  Py3status.on_click 5 three_running default_config (scroll_up default_config) idle
  = (Ok tt, idle).
Proof.
  apply other_buttons_are_inert.
  - vm_compute; discriminate.
  - vm_compute; discriminate.
  - left. reflexivity.
Defined.
